(** * aiscore: the batch scoring pipeline of the media scoring application

    A shallow embedding of the scoring core of the repository:
    - the numeric metrics [calculateVolumeQuality] and [getMediaTierScore],
    - the AI scorer client [analyzeWithGemini] with its retry loop,
    - the batch orchestrator [handleExcelFile] with the score composition,
    - the rubric averages of the report view.

    Conventions.
    - A JavaScript string is its sequence of UTF-16 code units ([jsstring]).
    - A JavaScript number is an IEEE 754 binary64 value (Rocq's primitive
      [float]); [+], [*] and [/] are the primitive operations.
    - The network (content proxy, AI endpoint), the timers and the React
      setters are made explicit: the endpoint is an oracle indexed by the
      number of calls already made, and every call, pause and progress
      update is appended to a chronological trace. *)

From Stdlib Require Import ZArith NArith List String Ascii Bool Lia.
From Stdlib Require Import Floats QArith Qround.
From Stdlib Require Import Reals Lra.
From Stdlib Require Import Permutation.
Import ListNotations.

#[local] Set Warnings "-inexact-float".
#[local] Close Scope R_scope.
#[local] Close Scope Q_scope.
#[local] Open Scope list_scope.

(* ================================================================== *)
(** * JavaScript strings *)
(* ================================================================== *)

(** A string value: the list of its UTF-16 code units. *)
Definition jsstring := list N.

(** Code points of a UTF-8 byte sequence (string literals of this file are
    UTF-8); an ill-formed sequence decodes to U+FFFD. *)
Fixpoint utf8_points (fuel : nat) (bs : list N) : list N :=
  match fuel with
  | O => []
  | S fuel' =>
    match bs with
    | [] => []
    | b0 :: r0 =>
      if (b0 <? 0x80)%N then b0 :: utf8_points fuel' r0
      else if (b0 <? 0xC0)%N then 0xFFFD%N :: utf8_points fuel' r0
      else if (b0 <? 0xE0)%N then
        match r0 with
        | b1 :: r1 =>
            ((b0 - 0xC0) * 64 + (b1 - 0x80))%N :: utf8_points fuel' r1
        | _ => [0xFFFD%N]
        end
      else if (b0 <? 0xF0)%N then
        match r0 with
        | b1 :: b2 :: r2 =>
            ((b0 - 0xE0) * 4096 + (b1 - 0x80) * 64 + (b2 - 0x80))%N
              :: utf8_points fuel' r2
        | _ => [0xFFFD%N]
        end
      else
        match r0 with
        | b1 :: b2 :: b3 :: r3 =>
            ((b0 - 0xF0) * 262144 + (b1 - 0x80) * 4096
             + (b2 - 0x80) * 64 + (b3 - 0x80))%N
              :: utf8_points fuel' r3
        | _ => [0xFFFD%N]
        end
    end
  end.

(** UTF-16 encoding of one code point. *)
Definition utf16_units (cp : N) : list N :=
  if (cp <? 0x10000)%N then [cp]
  else [(0xD800 + (cp - 0x10000) / 1024)%N; (0xDC00 + (cp - 0x10000) mod 1024)%N].

(** The JavaScript string denoted by a literal of this file. *)
Definition utf16 (s : string) : jsstring :=
  let bs := map N_of_ascii (list_ascii_of_string s) in
  flat_map utf16_units (utf8_points (List.length bs) bs).

Definition unit_eqb (a b : N) : bool := N.eqb a b.

(** [a === b] on strings. *)
Fixpoint str_eqb (a b : jsstring) : bool :=
  match a, b with
  | [], [] => true
  | x :: a', y :: b' => unit_eqb x y && str_eqb a' b'
  | _, _ => false
  end.

(** [p] is a prefix of [s]; [s.startsWith(p)]. *)
Fixpoint startsWith (s p : jsstring) {struct p} : bool :=
  match p with
  | [] => true
  | c :: p' =>
    match s with
    | [] => false
    | d :: s' => unit_eqb d c && startsWith s' p'
    end
  end.

(** [s.includes(p)]: [p] occurs in [s] as a contiguous substring. *)
Fixpoint includes (s p : jsstring) : bool :=
  startsWith s p ||
  match s with
  | [] => false
  | _ :: s' => includes s' p
  end.

(** [s.substring(0, n)] for a non-negative integer [n]. *)
Definition substring0 (n : nat) (s : jsstring) : jsstring := firstn n s.

(** WhiteSpace and LineTerminator code units (ECMAScript 12.2, 12.3): the
    characters removed by [trim] and skipped by [parseFloat]. *)
Definition isWhiteSpace (c : N) : bool :=
  ((9 <=? c) && (c <=? 13) || (c =? 32) || (c =? 0xA0) || (c =? 0x1680)
   || (0x2000 <=? c) && (c <=? 0x200A) || (c =? 0x2028) || (c =? 0x2029)
   || (c =? 0x202F) || (c =? 0x205F) || (c =? 0x3000) || (c =? 0xFEFF))%N.

Fixpoint trimStart (s : jsstring) : jsstring :=
  match s with
  | [] => []
  | c :: s' => if isWhiteSpace c then trimStart s' else s
  end.

Definition trimEnd (s : jsstring) : jsstring := rev (trimStart (rev s)).

(** [s.trim()]. *)
Definition trim (s : jsstring) : jsstring := trimEnd (trimStart s).

(** [s.split(re)] for a regular expression [re] that matches exactly one
    code unit, the units satisfying [sep]. *)
Fixpoint split (sep : N -> bool) (s : jsstring) : list jsstring :=
  match s with
  | [] => [[]]
  | c :: s' =>
    if sep c then [] :: split sep s'
    else
      match split sep s' with
      | piece :: rest => (c :: piece) :: rest
      | [] => [[c]]
      end
  end.

(** [s.replace(re, by)] for a global regular expression [re] that matches
    exactly one code unit, the units satisfying [hit]. *)
Definition replaceAll (hit : N -> bool) (by_ : jsstring) (s : jsstring) : jsstring :=
  flat_map (fun c => if hit c then by_ else [c]) s.

Definition isDigit (c : N) : bool := ((48 <=? c) && (c <=? 57))%N.

(* ================================================================== *)
(** * JavaScript numbers *)
(* ================================================================== *)

(** The binary64 value nearest to the integer [n] (ties to even). *)
Definition Z2float (n : Z) : float :=
  SF2Prim (binary_normalize prec emax n 0 false).

(** The binary64 value nearest to [m * 10^e10] (ties to even), with the
    sign [neg]: the numeric value of a decimal literal.  For a negative
    exponent the quotient is computed with 64 extra bits and a sticky bit,
    so that the final rounding sees on which side of every midpoint the
    exact value lies. *)
Definition decimalToFloat (neg : bool) (m e10 : Z) : float :=
  if (m =? 0)%Z then (if neg then (-0)%float else 0%float)
  else
    let sgn := fun z : Z => if neg then (- z)%Z else z in
    if (0 <=? e10)%Z then
      SF2Prim (binary_normalize prec emax (sgn (m * 10 ^ e10)%Z) 0 false)
    else
      let d := (10 ^ (- e10))%Z in
      let s := (64 + Z.log2 d)%Z in
      let q := (m * 2 ^ s / d)%Z in
      let sticky := if ((m * 2 ^ s) mod d =? 0)%Z then 0%Z else 1%Z in
      SF2Prim (binary_normalize prec emax (sgn (2 * q + sticky)%Z) (- s - 1) false).

Definition digitVal (c : N) : Z := Z.of_N (c - 48).

(** The longest prefix of decimal digits, and what follows it. *)
Fixpoint spanDigits (s : jsstring) : jsstring * jsstring :=
  match s with
  | [] => ([], [])
  | c :: s' =>
    if isDigit c then let '(ds, r) := spanDigits s' in (c :: ds, r)
    else ([], s)
  end.

Definition digitsValue (ds : jsstring) : Z :=
  fold_left (fun acc c => (acc * 10 + digitVal c)%Z) ds 0%Z.

(** [ExponentPart] of a decimal literal at the head of [s], when there is
    one: [e] or [E], an optional sign and at least one digit. *)
Definition exponentPart (s : jsstring) : Z :=
  match s with
  | c :: r =>
    if ((c =? 101) || (c =? 69))%N then
      let '(eneg, r') :=
        match r with
        | 43%N :: t => (false, t)
        | 45%N :: t => (true, t)
        | _ => (false, r)
        end in
      match fst (spanDigits r') with
      | [] => 0%Z
      | ds => if eneg then (- digitsValue ds)%Z else digitsValue ds
      end
    else 0%Z
  | [] => 0%Z
  end.

(** [parseFloat(s)] on a string (ECMAScript 19.2.4): leading white space is
    skipped, the longest prefix that is a [StrDecimalLiteral] is converted,
    and [NaN] is returned when there is none. *)
Definition parseFloat_string (s : jsstring) : float :=
  let s1 := trimStart s in
  let '(neg, s2) :=
    match s1 with
    | 43%N :: r => (false, r)
    | 45%N :: r => (true, r)
    | _ => (false, s1)
    end in
  if startsWith s2 (utf16 "Infinity") then
    (if neg then neg_infinity else infinity)
  else
    let '(ip, r1) := spanDigits s2 in
    let '(fp, r2) :=
      match r1 with
      | 46%N :: r => spanDigits r
      | _ => ([], r1)
      end in
    match ip, fp with
    | [], [] => nan
    | _, _ =>
      decimalToFloat neg (digitsValue (ip ++ fp))
        (exponentPart r2 - Z.of_nat (List.length fp))
    end.

(** [Math.round(x)] (ECMAScript 21.3.2.28): the integer closest to [x],
    ties towards +infinity; computed on the exact value [m * 2^e]. *)
Definition Math_round (x : float) : float :=
  match Prim2SF x with
  | S754_finite s m e =>
    if (0 <=? e)%Z then x
    else
      let den := (2 ^ (- e))%Z in
      let num := if s then (- Zpos m)%Z else Zpos m in
      let n := ((2 * num + den) / (2 * den))%Z in
      if (n =? 0)%Z then (if s then (-0)%float else 0%float) else Z2float n
  | _ => x
  end.

(** [Math.min(a, b)] (ECMAScript 21.3.2.25). *)
Definition Math_min (a b : float) : float :=
  if is_nan a || is_nan b then nan
  else if (a <? b)%float then a
  else if (b <? a)%float then b
  else if is_zero a && get_sign a then a else b.

(** The decimal digits of a non-negative integer. *)
Fixpoint uint_units (d : Decimal.uint) : jsstring :=
  match d with
  | Decimal.Nil => []
  | Decimal.D0 r => 48%N :: uint_units r
  | Decimal.D1 r => 49%N :: uint_units r
  | Decimal.D2 r => 50%N :: uint_units r
  | Decimal.D3 r => 51%N :: uint_units r
  | Decimal.D4 r => 52%N :: uint_units r
  | Decimal.D5 r => 53%N :: uint_units r
  | Decimal.D6 r => 54%N :: uint_units r
  | Decimal.D7 r => 55%N :: uint_units r
  | Decimal.D8 r => 56%N :: uint_units r
  | Decimal.D9 r => 57%N :: uint_units r
  end.

Definition decimalDigits (n : Z) : jsstring := uint_units (N.to_uint (Z.to_N n)).

(** Steps 9 and 10 of [Number.prototype.toFixed]: the digits of [n] with a
    decimal point before the last [fd] of them, padded with zeros on the
    left to at least [fd + 1] digits. *)
Definition fixedDigits (n : Z) (fd : nat) : jsstring :=
  let m := decimalDigits n in
  match fd with
  | O => m
  | _ =>
    let m' := repeat 48%N (fd + 1 - List.length m) ++ m in
    let k := List.length m' in
    firstn (k - fd) m' ++ [46%N] ++ skipn (k - fd) m'
  end.

(** The part of the JavaScript runtime that is not defined here. *)
Record JsRuntime := {
  (** [String.prototype.toLowerCase], the Unicode default lower casing *)
  toLowerCase : jsstring -> jsstring;
  (** [Number::toString], the shortest round-tripping decimal form *)
  NumberToString : float -> jsstring;
  (** [Math.log10], implementation-approximated *)
  Math_log10 : float -> float;
  (** the message of the [TypeError] raised when the named method is
      called on a value that does not have it *)
  typeErrorMessage : jsstring -> jsstring
}.

(** [x.toFixed(fd)] (ECMAScript 21.1.3.3): [n] is the integer for which
    [n / 10^fd - x] is as close to zero as possible, the larger one when
    there are two. *)
Definition toFixed (rt : JsRuntime) (x : float) (fd : nat) : jsstring :=
  match Prim2SF x with
  | S754_nan => utf16 "NaN"
  | S754_infinity s => if s then utf16 "-Infinity" else utf16 "Infinity"
  | S754_zero _ => fixedDigits 0 fd
  | S754_finite s m e =>
    if (1e21 <=? abs x)%float then NumberToString rt x
    else
      let scaled := (Zpos m * 10 ^ Z.of_nat fd)%Z in
      let n :=
        if (0 <=? e)%Z then (scaled * 2 ^ e)%Z
        else ((2 * scaled + 2 ^ (- e)) / (2 * 2 ^ (- e)))%Z in
      (if s then [45%N] else []) ++ fixedDigits n fd
  end.

(* ================================================================== *)
(** * Values, rows and configuration *)
(* ================================================================== *)

(** The values a spreadsheet cell or a missing property can have. *)
Inductive JsVal :=
| JUndefined
| JBool (b : bool)
| JNumber (x : float)
| JString (s : jsstring).

(** ToBoolean. *)
Definition truthy (v : JsVal) : bool :=
  match v with
  | JUndefined => false
  | JBool b => b
  | JNumber x => negb (is_nan x || is_zero x)
  | JString s => match s with [] => false | _ => true end
  end.

(** [a || b]. *)
Definition js_or (a b : JsVal) : JsVal := if truthy a then a else b.

Declare Scope js_scope.
Delimit Scope js_scope with js.
Notation "a '|||' b" := (js_or a b) (at level 50, left associativity) : js_scope.

(** [String(v)]. *)
Definition ToString (rt : JsRuntime) (v : JsVal) : jsstring :=
  match v with
  | JUndefined => utf16 "undefined"
  | JBool true => utf16 "true"
  | JBool false => utf16 "false"
  | JNumber x => NumberToString rt x
  | JString s => s
  end.

(** [parseFloat(v)]: the argument is converted to a string first. *)
Definition parseFloat (rt : JsRuntime) (v : JsVal) : float :=
  parseFloat_string (ToString rt v).

(** [x || 0] on a number: [NaN] and the zeros are falsy. *)
Definition orZero (x : float) : float :=
  if is_nan x || is_zero x then 0%float else x.

(** One spreadsheet record: column name to cell value, as produced by
    [XLSX.utils.sheet_to_json]. *)
Definition Row := list (jsstring * JsVal).

(** [row[key]]. *)
Fixpoint get (row : Row) (key : jsstring) : JsVal :=
  match row with
  | [] => JUndefined
  | (k, v) :: row' => if str_eqb k key then v else get row' key
  end.

(** types.ts *)
Record Tiers := { tier1 : jsstring; tier2 : jsstring; tier3 : jsstring }.

Record AIAnalysisResult := {
  km_score : float;
  acquisition_score : float;
  audience_precision_score : float;
  comment : jsstring
}.

Record BatchResult := {
  标题 : JsVal;
  媒体名称 : JsVal;
  项目总分 : jsstring;
  真需求 : jsstring;
  获客效能 : float;
  声量 : jsstring;
  核心信息匹配 : float;
  受众精准度 : float;
  媒体分级 : float;
  传播质量 : float;
  评价 : jsstring
}.

Inductive AudienceMode := GENERAL | PATIENT | HCP.

Definition audienceLabel (m : AudienceMode) : jsstring :=
  match m with
  | GENERAL => utf16 "大众 (General)"
  | PATIENT => utf16 "患者 (Patient)"
  | HCP => utf16 "医疗专业人士 (HCP)"
  end.

(** A thrown [Error]; only its message is ever inspected. *)
Record JsError := { message : jsstring }.

(* ================================================================== *)
(** * Numeric metrics *)
(* ================================================================== *)

Definition isK (c : N) : bool := ((c =? 107) || (c =? 75))%N.
Definition isDigitOrDot (c : N) : bool := isDigit c || (c =? 46)%N.

(** [cleanNum], local to [calculateVolumeQuality]:
    [x.replace(/[kK]/g, '000').replace(/[^\d\.]/g, '')] on a string. *)
Definition cleanNum (rt : JsRuntime) (x : JsVal) : float :=
  match x with
  | JString s =>
    let s' := replaceAll (fun c => negb (isDigitOrDot c)) []
                (replaceAll isK (utf16 "000") s) in
    orZero (parseFloat_string s')
  | _ => orZero (parseFloat rt x)
  end.

(** The body of the [try] block; nothing in it can throw on the values of
    [JsVal], so the [catch] branch (result [1.0]) is not reached. *)
Definition calculateVolumeQuality (rt : JsRuntime) (views interactions : JsVal) : float :=
  let v := cleanNum rt views in
  let i := cleanNum rt interactions in
  let rawScore := (Math_log10 rt (v + i * 5 + 10) * 1.5)%float in
  Math_min 10.0%float (Math_round (rawScore * 10) / 10)%float.

(** The separators of a tier list: [/[,，]/]. *)
Definition isComma (c : N) : bool := ((c =? 44) || (c =? 0xFF0C))%N.

Definition nonEmpty (s : jsstring) : bool :=
  match s with [] => false | _ => true end.

(** [parse], local to [getMediaTierScore]. *)
Definition parseTier (rt : JsRuntime) (t : jsstring) : list jsstring :=
  filter nonEmpty (map (fun x => toLowerCase rt (trim x)) (split isComma t)).

Definition getMediaTierScore (rt : JsRuntime) (tiers : Tiers) (mediaName : JsVal) : float :=
  if negb (truthy mediaName) then 3%float
  else
    let mName := trim (toLowerCase rt (ToString rt mediaName)) in
    if existsb (fun m => includes mName m) (parseTier rt (tier1 tiers)) then 10%float
    else if existsb (fun m => includes mName m) (parseTier rt (tier2 tiers)) then 8%float
    else if existsb (fun m => includes mName m) (parseTier rt (tier3 tiers)) then 5%float
    else 3%float.

(* ================================================================== *)
(** * The outside world: network, timers, progress *)
(* ================================================================== *)

(** What is interpolated into the prompt of one scoring request. *)
Record Request := {
  rq_mediaName : JsVal;
  rq_audienceMode : AudienceMode;
  rq_keyMessage : jsstring;
  rq_projectDesc : jsstring;
  rq_content : jsstring
}.

(** What one call of [ai.models.generateContent] followed by
    [JSON.parse(response.text)] can do. *)
Inductive RemoteOutcome :=
| CallThrows (e : JsError)          (** the request itself fails *)
| EmptyText                         (** [response.text] is empty or missing *)
| ParseThrows (e : JsError)         (** [JSON.parse] rejects the text *)
| Parsed (r : AIAnalysisResult).    (** the parsed object *)

Record Env := {
  (** [process.env.API_KEY] *)
  API_KEY : option jsstring;
  (** the AI endpoint: its answer to the [n]-th call (counted from 0) *)
  generateContent : nat -> Request -> RemoteOutcome;
  (** [fetch] of the content proxy: the body of a 2xx answer, if any *)
  fetchProxy : jsstring -> option jsstring
}.

Inductive Event :=
| ECall (rq : Request)      (** one call of the AI endpoint *)
| ESleep (ms : Z)           (** one [setTimeout] pause *)
| EFetch (url : jsstring)   (** one fetch of the content proxy *)
| EProgress (pct : Z).      (** one [setProgress] *)

(** The trace so far, oldest event first, and the number of endpoint calls
    in it. *)
Record World := { calls : nat; trace : list Event }.

Definition emit (ev : Event) (w : World) : World :=
  {| calls := calls w; trace := trace w ++ [ev] |}.

(** [await delay(ms)] *)
Definition delay (ms : Z) (w : World) : World := emit (ESleep ms) w.

(** The body of the [try] block once the endpoint has answered: the
    [text] check and [JSON.parse]. *)
Definition attemptResult (o : RemoteOutcome) : JsError + AIAnalysisResult :=
  match o with
  | CallThrows e => inl e
  | EmptyText => inl {| message := utf16 "AI 返回了空响应" |}
  | ParseThrows e => inl e
  | Parsed r => inr r
  end.

(** One pass through the [try] block: a call of the endpoint and the
    treatment of its answer. *)
Definition callRemote (env : Env) (rq : Request) (w : World)
  : (JsError + AIAnalysisResult) * World :=
  (attemptResult (generateContent env (calls w) rq),
   {| calls := S (calls w); trace := trace w ++ [ECall rq] |}).

(* ================================================================== *)
(** * services/geminiService.ts *)
(* ================================================================== *)

Definition isRateLimit (e : JsError) : bool :=
  includes (message e) (utf16 "429")
  || includes (message e) (utf16 "RESOURCE_EXHAUSTED").

(** The [while (retries >= 0)] loop.  [retries] is only decremented while
    it is positive, so the loop condition never fails and the [throw] that
    follows the loop is not reached; the recursion is on [retries]. *)
Fixpoint retryLoop (env : Env) (rq : Request) (retries : nat) (backoffMs : Z)
    (w : World) : (JsError + AIAnalysisResult) * World :=
  match callRemote env rq w with
  | (inr r, w1) => (inr r, w1)
  | (inl e, w1) =>
    match retries with
    | S retries' =>
      if isRateLimit e then
        retryLoop env rq retries' (backoffMs * 2) (delay backoffMs w1)
      else (inl e, w1)
    | O => (inl e, w1)
    end
  end.

Definition apiKeyMissing (k : option jsstring) : bool :=
  match k with
  | None => true
  | Some s => str_eqb s (utf16 "undefined") || str_eqb s []
  end.

(** The values interpolated into [prompt]; the content is clipped by
    [content.substring(0, 5000)]. *)
Definition promptOf (mediaName : JsVal) (audienceMode : AudienceMode)
    (projectKeyMessage projectDesc : jsstring) (content : jsstring) : Request :=
  {| rq_mediaName := mediaName; rq_audienceMode := audienceMode;
     rq_keyMessage := projectKeyMessage; rq_projectDesc := projectDesc;
     rq_content := substring0 5000 content |}.

Definition analyzeWithGemini (rt : JsRuntime) (env : Env)
    (content : JsVal) (audienceMode : AudienceMode)
    (projectKeyMessage projectDesc : jsstring) (mediaName : JsVal)
    (w : World) : (JsError + AIAnalysisResult) * World :=
  if apiKeyMissing (API_KEY env) then
    (inl {| message :=
              utf16 "API_KEY 缺失！请确保已在 Netlify 环境变量中设置 API_KEY。" |}, w)
  else
    match content with
    | JString s =>
      retryLoop env (promptOf mediaName audienceMode projectKeyMessage projectDesc s)
        3 2000 w
    | _ => (inl {| message := typeErrorMessage rt (utf16 "content.substring") |}, w)
    end.

(* ================================================================== *)
(** * The batch orchestrator (App.tsx, [handleExcelFile]) *)
(* ================================================================== *)

(** The configuration state of the component. *)
Record Config := {
  projectKeyMessage : jsstring;
  projectDesc : jsstring;
  audienceMode : AudienceMode;
  tiers : Tiers
}.

Definition col (row : Row) (name : string) : JsVal := get row (utf16 name).

(** [row['媒体名称'] || row['媒体'] || "未知"] *)
Definition rowMediaName (row : Row) : JsVal :=
  (col row "媒体名称" ||| col row "媒体" ||| JString (utf16 "未知"))%js.

(** [v?.substring(0, 20)] *)
Definition optSubstring20 (rt : JsRuntime) (v : JsVal) : JsError + JsVal :=
  match v with
  | JUndefined => inr JUndefined
  | JString s => inr (JString (substring0 20 s))
  | _ => inl {| message := typeErrorMessage rt (utf16 "row.正文.substring") |}
  end.

(** [row['标题'] || row['Title'] || row['正文']?.substring(0, 20) || "无标题"] *)
Definition rowTitle (rt : JsRuntime) (row : Row) : JsError + JsVal :=
  let t := (col row "标题" ||| col row "Title")%js in
  if truthy t then inr t
  else
    match optSubstring20 rt (col row "正文") with
    | inl e => inl e
    | inr v => inr (v ||| JString (utf16 "无标题"))%js
    end.

(** [row['浏览量'] || row['PV'] || 0] *)
Definition rowViews (row : Row) : JsVal :=
  (col row "浏览量" ||| col row "PV" ||| JNumber 0)%js.

Definition rowInteractions (rt : JsRuntime) (row : Row) : float :=
  (orZero (parseFloat rt (col row "点赞量"))
   + orZero (parseFloat rt (col row "转发量"))
   + orZero (parseFloat rt (col row "评论量")))%float.

(** [row['URL'] || row['链接'] || row['Link'] || ""] *)
Definition rowUrl (row : Row) : JsVal :=
  (col row "URL" ||| col row "链接" ||| col row "Link" ||| JString [])%js.

(** [row['正文'] || row['Content'] || row['标题'] || title || ""] *)
Definition rowContent (row : Row) (title : JsVal) : JsVal :=
  (col row "正文" ||| col row "Content" ||| col row "标题" ||| title ||| JString [])%js.

(** The initial value of [aiRes]. *)
Definition floorResult : AIAnalysisResult :=
  {| km_score := 1; acquisition_score := 1; audience_precision_score := 1;
     comment := utf16 "待评估" |}.

(** [fetchUrlContent] and the block that calls it:
    [if (!content && url && url.startsWith("http")) {...}] *)
Definition resolveContent (rt : JsRuntime) (env : Env) (content url : JsVal)
    (w : World) : (JsError + JsVal) * World :=
  if negb (truthy content) && truthy url then
    match url with
    | JString u =>
      if startsWith u (utf16 "http") then
        let w' := emit (EFetch u) w in
        match fetchProxy env u with
        | Some scraped =>
          if truthy (JString scraped) then (inr (JString scraped), w')
          else (inr content, w')
        | None => (inr content, w')
        end
      else (inr content, w)
    | _ => (inl {| message := typeErrorMessage rt (utf16 "url.startsWith") |}, w)
    end
  else (inr content, w).

(** The [catch] block: the floor object keeps its three sub-scores and
    gets the failure message as its comment. *)
Definition failedResult (e : JsError) : AIAnalysisResult :=
  {| km_score := km_score floorResult;
     acquisition_score := acquisition_score floorResult;
     audience_precision_score := audience_precision_score floorResult;
     comment := utf16 "AI分析失败: " ++ message e |}.

(** The value of [aiRes] after the [try]/[catch]. *)
Definition afterCatch (res : JsError + AIAnalysisResult) : AIAnalysisResult :=
  match res with
  | inr r => r
  | inl e => failedResult e
  end.

(** The block [if (content || mediaName) { try {...} catch (e) {...} }]. *)
Definition scoreRow (rt : JsRuntime) (env : Env) (cfg : Config) (i : nat)
    (content mediaName : JsVal) (w : World) : AIAnalysisResult * World :=
  if truthy content || truthy mediaName then
    let w1 := if (0 <? i)%nat then delay 800 w else w in
    let '(res, w2) :=
      analyzeWithGemini rt env content (audienceMode cfg)
        (projectKeyMessage cfg) (projectDesc cfg) mediaName w1 in
    (afterCatch res, w2)
  else (floorResult, w).

(** The score composition and the record pushed for one row. *)
Definition composeRecord (rt : JsRuntime) (title mediaName : JsVal)
    (volQuality tierScore : float) (aiRes : AIAnalysisResult) : BatchResult :=
  let volTotal := (0.6 * volQuality + 0.4 * tierScore)%float in
  let trueDemand :=
    (0.6 * km_score aiRes + 0.4 * audience_precision_score aiRes)%float in
  let totalScore :=
    ((0.5 * trueDemand) + (0.2 * acquisition_score aiRes) + (0.3 * volTotal))%float in
  {| 标题 := title;
     媒体名称 := mediaName;
     项目总分 := toFixed rt totalScore 2;
     真需求 := toFixed rt trueDemand 2;
     获客效能 := acquisition_score aiRes;
     声量 := toFixed rt volTotal 2;
     核心信息匹配 := km_score aiRes;
     受众精准度 := audience_precision_score aiRes;
     媒体分级 := tierScore;
     传播质量 := volQuality;
     评价 := comment aiRes |}.

(** The record of a row, given its title and the final [aiRes]. *)
Definition recordOfRow (rt : JsRuntime) (cfg : Config) (row : Row)
    (title : JsVal) (aiRes : AIAnalysisResult) : BatchResult :=
  let mediaName := rowMediaName row in
  let views := rowViews row in
  let interactions := rowInteractions rt row in
  let volQuality := calculateVolumeQuality rt views (JNumber interactions) in
  let tierScore := getMediaTierScore rt (tiers cfg) mediaName in
  composeRecord rt title mediaName volQuality tierScore aiRes.

(** One iteration of the [for] loop, up to [results.push]; [inl] is an
    exception that leaves the loop. *)
Definition processRow (rt : JsRuntime) (env : Env) (cfg : Config) (i : nat)
    (row : Row) (w : World) : (JsError + BatchResult) * World :=
  match rowTitle rt row with
  | inl e => (inl e, w)
  | inr title =>
    match resolveContent rt env (rowContent row title) (rowUrl row) w with
    | (inl e, w1) => (inl e, w1)
    | (inr content, w1) =>
      let '(aiRes, w2) := scoreRow rt env cfg i content (rowMediaName row) w1 in
      (inr (recordOfRow rt cfg row title aiRes), w2)
    end
  end.

(** [Math.round(x)] on an exact rational. *)
Definition Math_roundQ (x : Q) : Z := Qfloor (x + (1 # 2))%Q.

(** [Math.round(((i + 1) / totalRows) * 100)].  The loop index and the row
    count are integers; the quotient is taken over the rationals (its
    binary64 rounding is not part of this model). *)
Definition progressAfter (i totalRows : nat) : Z :=
  Math_roundQ ((inject_Z (Z.of_nat (i + 1)) / inject_Z (Z.of_nat totalRows)) * 100)%Q.

(** [setProgress(p)] *)
Definition setProgress (p : Z) (w : World) : World := emit (EProgress p) w.

(** The [for] loop from index [i] on, over the rows that remain. *)
Fixpoint forRows (rt : JsRuntime) (env : Env) (cfg : Config)
    (totalRows i : nat) (rows : list Row) (results : list BatchResult)
    (w : World) : (JsError + list BatchResult) * World :=
  match rows with
  | [] => (inr results, w)
  | row :: rest =>
    match processRow rt env cfg i row w with
    | (inl e, w1) => (inl e, w1)
    | (inr rec, w1) =>
      forRows rt env cfg totalRows (S i) rest (results ++ [rec])
        (setProgress (progressAfter i totalRows) w1)
    end
  end.

(** The state written by [handleExcelFile]. *)
Record BatchState := {
  batchResults : option (list BatchResult);
  errorLog : jsstring
}.

(** [reader.onload] of [handleExcelFile], from the parsed sheet [json] on. *)
Definition handleExcelFile (rt : JsRuntime) (env : Env) (cfg : Config)
    (json : list Row) (w : World) : BatchState * World :=
  let w0 := setProgress 0 w in
  match forRows rt env cfg (List.length json) 0 json [] w0 with
  | (inr results, w1) =>
    ({| batchResults := Some results; errorLog := [] |}, w1)
  | (inl err, w1) =>
    ({| batchResults := None;
        errorLog := utf16 "Excel 处理错误: " ++ message err |}, w1)
  end.

(* ================================================================== *)
(** * Aggregation (App.tsx, [renderCharts] and the summary metrics) *)
(* ================================================================== *)

(** [keyof BatchResult] *)
Inductive BatchKey :=
| K_标题 | K_媒体名称 | K_项目总分 | K_真需求 | K_获客效能 | K_声量
| K_核心信息匹配 | K_受众精准度 | K_媒体分级 | K_传播质量 | K_评价.

(** [b[key]] *)
Definition field (key : BatchKey) (b : BatchResult) : JsVal :=
  match key with
  | K_标题 => 标题 b
  | K_媒体名称 => 媒体名称 b
  | K_项目总分 => JString (项目总分 b)
  | K_真需求 => JString (真需求 b)
  | K_获客效能 => JNumber (获客效能 b)
  | K_声量 => JString (声量 b)
  | K_核心信息匹配 => JNumber (核心信息匹配 b)
  | K_受众精准度 => JNumber (受众精准度 b)
  | K_媒体分级 => JNumber (媒体分级 b)
  | K_传播质量 => JNumber (传播质量 b)
  | K_评价 => JString (评价 b)
  end.

(** [batchResults.reduce((a, b) => a + parseFloat(b[key] || "0"), 0)
      / batchResults.length] *)
Definition avg (rt : JsRuntime) (key : BatchKey) (results : list BatchResult) : float :=
  (fold_left
     (fun a b => a + parseFloat rt (field key b ||| JString (utf16 "0"))%js)
     results 0
   / Z2float (Z.of_nat (List.length results)))%float.

(** The four summary cards of the report tab, [avgVal.toFixed(2)] each;
    the tab shows them whenever [batchResults] is not null. *)
Definition summaryMetrics (rt : JsRuntime) (st : option (list BatchResult))
  : option (list jsstring) :=
  match st with
  | None => None
  | Some results =>
    Some (map (fun k => toFixed rt (avg rt k results) 2)
              [K_项目总分; K_真需求; K_获客效能; K_声量])
  end.

(** The data points of the radar chart. *)
Definition radarData (rt : JsRuntime) (st : option (list BatchResult))
  : option (list float) :=
  match st with
  | None => None
  | Some results =>
    Some (map (fun k => avg rt k results)
              [K_核心信息匹配; K_获客效能; K_受众精准度; K_媒体分级; K_传播质量])
  end.

(* ================================================================== *)
(** * The volume quality formula over the reals *)
(* ================================================================== *)





(* ================================================================== *)
(** * Observations on traces and runs *)
(* ================================================================== *)

(** The inverse of [split]: the pieces with the separators put back. *)
Fixpoint unsplit (pieces : list jsstring) (seps : list N) : jsstring :=
  match pieces with
  | [] => []
  | p :: ps =>
    match seps with
    | [] => p
    | c :: cs => p ++ c :: unsplit ps cs
    end
  end.

(** The tier rule in the words of the specification: some entry of the
    comma-separated list [t], trimmed and lower-cased, is not empty and
    occurs in [name] as a substring. *)
Definition tierHit (rt : JsRuntime) (t : jsstring) (name : jsstring) : Prop :=
  exists piece,
    In piece (split isComma t) /\
    toLowerCase rt (trim piece) <> [] /\
    exists pre suf, name = pre ++ toLowerCase rt (trim piece) ++ suf.

(** The pauses of a trace, in order. *)
Fixpoint sleeps (tr : list Event) : list Z :=
  match tr with
  | [] => []
  | ESleep ms :: tr' => ms :: sleeps tr'
  | _ :: tr' => sleeps tr'
  end.

(** The endpoint calls of a trace, in order. *)
Fixpoint remoteCalls (tr : list Event) : list Request :=
  match tr with
  | [] => []
  | ECall rq :: tr' => rq :: remoteCalls tr'
  | _ :: tr' => remoteCalls tr'
  end.

(** The progress values of a trace, in order. *)
Fixpoint progressValues (tr : list Event) : list Z :=
  match tr with
  | [] => []
  | EProgress p :: tr' => p :: progressValues tr'
  | _ :: tr' => progressValues tr'
  end.

Definition sumZ (l : list Z) : Z := fold_right Z.add 0%Z l.

(** The events of [n + 1] attempts separated by [n] pauses that start at
    [backoffMs] and double. *)
Fixpoint attemptsTrace (rq : Request) (n : nat) (backoffMs : Z) : list Event :=
  match n with
  | O => [ECall rq]
  | S n' => ECall rq :: ESleep backoffMs :: attemptsTrace rq n' (backoffMs * 2)
  end.

(** The world in which the iteration for row [j] starts. *)
Definition worldAt (rt : JsRuntime) (env : Env) (cfg : Config)
    (json : list Row) (w : World) (j : nat) : World :=
  snd (forRows rt env cfg (List.length json) 0 (firstn j json) [] (setProgress 0 w)).

(** The scoring call made for row [row] at index [i] in world [w], for a
    row whose title is [title]. *)
Definition rowScoring (rt : JsRuntime) (env : Env) (cfg : Config) (i : nat)
    (row : Row) (title : JsVal) (w : World) : (JsError + AIAnalysisResult) * World :=
  analyzeWithGemini rt env (rowContent row title) (audienceMode cfg)
    (projectKeyMessage cfg) (projectDesc cfg) (rowMediaName row)
    (if (0 <? i)%nat then delay 800 w else w).

(** The rows on which the title expression does not raise a [TypeError]. *)
Definition titleOk (rt : JsRuntime) (row : Row) : bool :=
  match rowTitle rt row with inr _ => true | inl _ => false end.

(* ================================================================== *)
(** * A runtime and an endpoint for closed examples *)
(* ================================================================== *)

Definition asciiLower (s : jsstring) : jsstring :=
  map (fun c => if ((65 <=? c) && (c <=? 90))%N then (c + 32)%N else c) s.

(** Agrees with ECMAScript on ASCII letters and on the printing of
    integers below 2^53; only meant for the examples below. *)
Definition exampleRuntime : JsRuntime :=
  {| toLowerCase := asciiLower;
     NumberToString := fun x =>
       match Prim2SF x with
       | S754_zero _ => [48%N]
       | S754_finite s m e =>
         (if s then [45%N] else [])
           ++ decimalDigits (if (0 <=? e)%Z then Zpos m * 2 ^ e else Zpos m / 2 ^ (- e))
       | S754_infinity s => if s then utf16 "-Infinity" else utf16 "Infinity"
       | S754_nan => utf16 "NaN"
       end;
     Math_log10 := fun x =>
       Z2float (Z.of_nat (List.length (decimalDigits
         (match Prim2SF x with
          | S754_finite false m e =>
            if (0 <=? e)%Z then Zpos m * 2 ^ e else Zpos m / 2 ^ (- e)
          | _ => 0
          end))) - 1);
     typeErrorMessage := fun what => what ++ utf16 " is not a function" |}.

Definition exampleConfig : Config :=
  {| projectKeyMessage := utf16 "early screening";
     projectDesc := utf16 "book a consultation";
     audienceMode := PATIENT;
     tiers := {| tier1 := utf16 "Xinhua，People's Daily";
                 tier2 := utf16 "Sina, Sohu";
                 tier3 := utf16 "daily" |} |}.

Definition startWorld : World := {| calls := 0; trace := [] |}.

(** The three composites of a record, recomputed from its stored
    sub-scores by the published weights. *)
Definition composedByRubric (rt : JsRuntime) (r : BatchResult) : Prop :=
  声量 r = toFixed rt (0.6 * 传播质量 r + 0.4 * 媒体分级 r)%float 2 /\
  真需求 r = toFixed rt (0.6 * 核心信息匹配 r + 0.4 * 受众精准度 r)%float 2 /\
  项目总分 r =
    toFixed rt
      (0.5 * (0.6 * 核心信息匹配 r + 0.4 * 受众精准度 r)
       + 0.2 * 获客效能 r
       + 0.3 * (0.6 * 传播质量 r + 0.4 * 媒体分级 r))%float 2.


(** The result of the [j]-th attempt made from world [w] on. *)
Definition attemptFrom (env : Env) (rq : Request) (w : World) (j : nat)
  : JsError + AIAnalysisResult :=
  attemptResult (generateContent env (calls w + j) rq).

(** The [j]-th attempt fails with an error classified as rate limiting. *)
Definition rateLimitedAt (env : Env) (rq : Request) (w : World) (j : nat) : bool :=
  match attemptFrom env rq w j with
  | inl e => isRateLimit e
  | inr _ => false
  end.

(** An endpoint for the examples: the third call (number 2) is refused
    with an authorisation error, every other call is answered. *)
Definition exampleAnswer : AIAnalysisResult :=
  {| km_score := 8; acquisition_score := 6; audience_precision_score := 7;
     comment := utf16 "on message" |}.

Definition exampleEnv : Env :=
  {| API_KEY := Some (utf16 "test-key");
     generateContent := fun n _ =>
       match n with
       | 2%nat => CallThrows {| message := utf16 "403 PERMISSION_DENIED" |}
       | _ => Parsed exampleAnswer
       end;
     fetchProxy := fun _ => None |}.

(** An endpoint that is rate limited for its first three calls. *)
Definition throttledEnv : Env :=
  {| API_KEY := Some (utf16 "test-key");
     generateContent := fun n _ =>
       match n with
       | 0%nat => CallThrows {| message := utf16 "got status: 429 Too Many Requests" |}
       | 1%nat => CallThrows {| message := utf16 "RESOURCE_EXHAUSTED" |}
       | 2%nat => CallThrows {| message := utf16 "429" |}
       | _ => Parsed exampleAnswer
       end;
     fetchProxy := fun _ => None |}.

Definition exampleRows : list Row :=
  [ [(utf16 "媒体名称", JString (utf16 "Xinhua Net"));
     (utf16 "标题", JString (utf16 "Screening week opens"));
     (utf16 "浏览量", JString (utf16 "12k"))];
    [(utf16 "媒体", JString (utf16 "Sohu Health"));
     (utf16 "正文", JString (utf16 "Clinics offer free checks this month."));
     (utf16 "PV", JNumber 350); (utf16 "点赞量", JNumber 12)];
    [(utf16 "媒体名称", JString (utf16 "Evening Daily"));
     (utf16 "Title", JString (utf16 "Health column"))];
    [(utf16 "浏览量", JNumber 100)] ].

(** A row with no media name, no title, no text and no link. *)
Definition bareRow : Row := [(utf16 "浏览量", JNumber 100)].

(* ================================================================== *)
(** * The single-document handler (App.tsx, [handleWordFile]) *)
(* ================================================================== *)

(** types.ts: [WordResult extends AIAnalysisResult] *)
Record WordResult := {
  word_scores : AIAnalysisResult;
  textLen : nat
}.

(** The state written by [handleWordFile]. *)
Record WordState := {
  wordResult : option WordResult;
  wordErrorLog : jsstring;
  isProcessing : bool
}.

(** [err.message || "分析 Word 文档时出错"] *)
Definition wordErrorText (e : JsError) : jsstring :=
  match message e with
  | [] => utf16 "分析 Word 文档时出错"
  | m => m
  end.

(** [handleWordFile].  [file] is [None] when no file was chosen; otherwise
    it holds what [mammoth.extractRawText] does on the file: it throws, or
    it returns the raw text [result.value]. *)
Definition handleWordFile (rt : JsRuntime) (env : Env) (cfg : Config)
    (file : option (JsError + jsstring)) (st : WordState) (w : World)
  : WordState * World :=
  match file with
  | None => (st, w)
  | Some extracted =>
    let finish (r : option WordResult) (log : jsstring) (w' : World) :=
      ({| wordResult := r; wordErrorLog := log; isProcessing := false |}, w') in
    match extracted with
    | inl err => finish None (wordErrorText err) w
    | inr fullText =>
      if (List.length (trim fullText) <? 10)%nat then
        finish None (wordErrorText {| message := utf16 "文档内容过少。" |}) w
      else
        match analyzeWithGemini rt env (JString fullText) (audienceMode cfg)
                (projectKeyMessage cfg) (projectDesc cfg)
                (JString (utf16 "内部稿件")) w with
        | (inr aiRes, w') =>
          finish (Some {| word_scores := aiRes; textLen := List.length fullText |}) [] w'
        | (inl err, w') => finish None (wordErrorText err) w'
        end
    end
  end.

(* ================================================================== *)
(** * Sorting and ranking (App.tsx, [requestSort], [top10Results]) *)
(* ================================================================== *)

Inductive Direction := asc | desc.

(** [SortConfig]: [null] or a key with a direction. *)
Definition SortConfig := option (BatchKey * Direction).

Definition key_eqb (a b : BatchKey) : bool :=
  match a, b with
  | K_标题, K_标题 | K_媒体名称, K_媒体名称 | K_项目总分, K_项目总分
  | K_真需求, K_真需求 | K_获客效能, K_获客效能 | K_声量, K_声量
  | K_核心信息匹配, K_核心信息匹配 | K_受众精准度, K_受众精准度
  | K_媒体分级, K_媒体分级 | K_传播质量, K_传播质量 | K_评价, K_评价 => true
  | _, _ => false
  end.

(** [requestSort]: the new value of [sortConfig]. *)
Definition requestSort (key : BatchKey) (sortConfig : SortConfig) : SortConfig :=
  match sortConfig with
  | Some (k, desc) => if key_eqb k key then Some (key, asc) else Some (key, desc)
  | _ => Some (key, desc)
  end.

(** [Array.prototype.sort] with a comparator: a stable sort in which [a]
    stays before [b] unless the comparator says [> 0]; insertion from the
    right.  (For a consistent comparator every stable sort gives this
    result.) *)
Fixpoint sortInsert {A} (cmp : A -> A -> float) (x : A) (l : list A) : list A :=
  match l with
  | [] => [x]
  | y :: l' => if (0 <? cmp x y)%float then y :: sortInsert cmp x l' else x :: l
  end.

Definition Array_sort {A} (cmp : A -> A -> float) (l : list A) : list A :=
  fold_right (sortInsert cmp) [] l.

(** [[...batchResults].sort((a, b) => parseFloat(b.项目总分) -
     parseFloat(a.项目总分)).slice(0, 10)], and [[]] without results. *)
Definition top10Results (st : option (list BatchResult)) : list BatchResult :=
  match st with
  | None => []
  | Some results =>
    firstn 10
      (Array_sort
         (fun a b => (parseFloat_string (项目总分 b) - parseFloat_string (项目总分 a))%float)
         results)
  end.

(** [Math.max(a, b)] (ECMAScript 21.3.2.24). *)
Definition Math_max (a b : float) : float :=
  if is_nan a || is_nan b then nan
  else if (a <? b)%float then b
  else if (b <? a)%float then a
  else if is_zero a && get_sign a then b else a.

(** The marker size of the scatter chart:
    [Math.min(45, Math.max(16, parseFloat(d.项目总分) * 4))]. *)
Definition markerSize (d : BatchResult) : float :=
  Math_min 45 (Math_max 16 (parseFloat_string (项目总分 d) * 4)%float).

(* ================================================================== *)
(** * The sidebar resize handle (App.tsx, [resize]) *)
(* ================================================================== *)

Inductive MouseEvent :=
| MouseDownOnHandle          (** [startResizing] *)
| MouseUp                    (** [stopResizing] *)
| MouseMove (clientX : float).  (** [resize] *)

Record Sidebar := { sidebarWidth : float; isResizing : bool }.

Definition initialSidebar : Sidebar := {| sidebarWidth := 320; isResizing := false |}.

Definition onMouse (s : Sidebar) (ev : MouseEvent) : Sidebar :=
  match ev with
  | MouseDownOnHandle => {| sidebarWidth := sidebarWidth s; isResizing := true |}
  | MouseUp => {| sidebarWidth := sidebarWidth s; isResizing := false |}
  | MouseMove newWidth =>
    if isResizing s then
      if (200 <? newWidth)%float && (newWidth <? 600)%float
      then {| sidebarWidth := newWidth; isResizing := isResizing s |}
      else s
    else s
  end.

(* ================================================================== *)
(** * Shapes of batch traces *)
(* ================================================================== *)

(** What an event of a batch over the rows [json] can be: a call for one
    of the rows, with the configuration of the batch and a content of at
    most 5000 code units; one of the four pauses; a progress value between
    0 and 100.  Never a fetch. *)
Definition batchEvent (cfg : Config) (json : list Row) (ev : Event) : Prop :=
  match ev with
  | ECall rq =>
    (exists row, In row json /\ rq_mediaName rq = rowMediaName row) /\
    rq_audienceMode rq = audienceMode cfg /\
    rq_keyMessage rq = projectKeyMessage cfg /\
    rq_projectDesc rq = projectDesc cfg /\
    (List.length (rq_content rq) <= 5000)%nat
  | ESleep ms => ms = 800%Z \/ ms = 2000%Z \/ ms = 4000%Z \/ ms = 8000%Z
  | EFetch _ => False
  | EProgress p => (0 <= p <= 100)%Z
  end.

(** The events appended to the trace of [w] by a run that ends in [w']. *)
Definition newEvents (w w' : World) : list Event :=
  skipn (List.length (trace w)) (trace w').

(** The pauses of [n] rows starting at index [i]: 800 ms before every row
    but the first of the batch, and at most 14000 ms of back-off per row. *)
Definition pauseBound (i n : nat) : Z :=
  (14800 * Z.of_nat n
   - (if (i =? 0)%nat && (0 <? n)%nat then 800 else 0))%Z.


(** The title of a row whose title expression does not throw. *)
Definition titleOf (rt : JsRuntime) (row : Row) : JsVal :=
  match rowTitle rt row with
  | inr title => title
  | inl _ => JUndefined
  end.

(** The error thrown by [analyzeWithGemini] when the key is missing. *)
Definition apiKeyError : JsError :=
  {| message := utf16 "API_KEY 缺失！请确保已在 Netlify 环境变量中设置 API_KEY。" |}.

(** The events of a batch in which no scoring call reaches the endpoint:
    the pacing pause before every row but the first, and the progress. *)
Definition pacingEvents (total i n : nat) : list Event :=
  flat_map (fun k => (if (0 <? k)%nat then [ESleep 800] else [])
                       ++ [EProgress (progressAfter k total)])
           (seq i n).

(** A numeral with exactly two decimals: an optional minus sign, at least
    one digit, a point and two digits. *)
Definition isFixed2 (c : jsstring) : Prop :=
  exists sign a b,
    c = sign ++ a ++ [46%N] ++ b /\
    (sign = [] \/ sign = [45%N]) /\
    a <> [] /\ List.length b = 2%nat /\
    Forall (fun u => isDigit u = true) (a ++ b).

(** The digits a string spells for [cleanNum]: its decimal digits, with
    three zeros for every [k] or [K]; all other characters dropped. *)
Definition spelledDigits (s : jsstring) : jsstring :=
  flat_map (fun c => if isK c then utf16 "000"
                     else if isDigit c then [c] else []) s.

(** A tier list without entries: separators and white space only. *)
Definition blankTier (t : jsstring) : Prop :=
  Forall (fun c => isComma c = true \/ isWhiteSpace c = true) t.

(* ================================================================== *)
(** * Facts about strings *)
(* ================================================================== *)

Lemma unit_eqb_true (a b : N) : unit_eqb a b = true <-> a = b.
Proof. unfold unit_eqb. apply N.eqb_eq. Qed.

Lemma str_eqb_true (a b : jsstring) : str_eqb a b = true <-> a = b.
Proof.
  revert b. induction a as [|x a IH]; intros [|y b]; simpl; split;
    try congruence; try reflexivity.
  - rewrite andb_true_iff, unit_eqb_true, IH. intros [-> ->]. reflexivity.
  - intros H. injection H as -> ->.
    rewrite andb_true_iff, unit_eqb_true, IH. split; reflexivity.
Qed.

Lemma startsWith_prefix (s p : jsstring) :
  startsWith s p = true <-> exists suf, s = p ++ suf.
Proof.
  revert s. induction p as [|c p IH]; intros s; simpl.
  - split; [intros _; exists s; reflexivity | reflexivity].
  - destruct s as [|d s].
    + split; [discriminate | intros [suf H]; discriminate].
    + rewrite andb_true_iff, unit_eqb_true, IH. split.
      * intros [-> [suf ->]]. exists suf. reflexivity.
      * intros [suf H]. injection H as -> ->. split; [reflexivity | eauto].
Qed.

(** [includes] is substring containment. *)
Lemma includes_substring (s p : jsstring) :
  includes s p = true <-> exists pre suf, s = pre ++ p ++ suf.
Proof.
  induction s as [|d s IH].
  - simpl. rewrite orb_false_r, startsWith_prefix. split.
    + intros [suf H]. exists [], suf. exact H.
    + intros [pre [suf H]]. destruct pre; [exists suf; exact H | discriminate].
  - change (includes (d :: s) p)
      with (startsWith (d :: s) p || includes s p).
    rewrite orb_true_iff, startsWith_prefix, IH. split.
    + intros [[suf H] | [pre [suf H]]].
      * exists [], suf. exact H.
      * exists (d :: pre), suf. rewrite H. reflexivity.
    + intros [[|x pre] [suf H]].
      * left. exists suf. exact H.
      * right. injection H as _ H. exists pre, suf. exact H.
Qed.

Lemma includes_empty_name (p : jsstring) : p <> [] -> includes [] p = false.
Proof. destruct p; [congruence | reflexivity]. Qed.

Lemma split_nonempty (sep : N -> bool) (s : jsstring) : split sep s <> [].
Proof.
  induction s as [|c s IH]; simpl; [discriminate|].
  destruct (sep c); [discriminate|].
  destruct (split sep s); [congruence | discriminate].
Qed.

(** [split] cuts exactly at the separators: the pieces contain none, and
    putting the separators back gives the string. *)
Lemma split_unsplit (sep : N -> bool) (s : jsstring) :
  exists seps,
    Forall (fun c => sep c = true) seps /\
    List.length (split sep s) = S (List.length seps) /\
    unsplit (split sep s) seps = s /\
    Forall (Forall (fun c => sep c = false)) (split sep s).
Proof.
  induction s as [|c s (seps & Hs & Hl & Hu & Hp)].
  - exists []. simpl. repeat split; auto.
  - simpl. destruct (sep c) eqn:Hc.
    + exists (c :: seps). simpl. rewrite Hl, Hu. repeat split; auto.
    + destruct (split sep s) as [|piece rest] eqn:Hsp.
      * simpl in Hl. discriminate.
      * exists seps. repeat split; auto.
        -- simpl in Hu |- *. destruct seps; simpl; rewrite <- Hu; reflexivity.
        -- inversion Hp; subst. constructor; auto.
Qed.

Lemma nonEmpty_true (s : jsstring) : nonEmpty s = true <-> s <> [].
Proof. destruct s; simpl; split; congruence. Qed.

(** The parsed patterns of a tier list. *)
Lemma parseTier_In (rt : JsRuntime) (t p : jsstring) :
  In p (parseTier rt t) <->
  p <> [] /\ exists piece, In piece (split isComma t) /\ p = toLowerCase rt (trim piece).
Proof.
  unfold parseTier. rewrite filter_In, in_map_iff, nonEmpty_true. split.
  - intros [[piece [<- Hin]] Hne]. split; [exact Hne | exists piece; auto].
  - intros [Hne [piece [Hin ->]]]. split; [exists piece; auto | exact Hne].
Qed.

Lemma tierHit_existsb (rt : JsRuntime) (t name : jsstring) :
  existsb (fun m => includes name m) (parseTier rt t) = true <-> tierHit rt t name.
Proof.
  rewrite existsb_exists. unfold tierHit. split.
  - intros [p [Hin Hinc]]. apply parseTier_In in Hin.
    destruct Hin as [Hne [piece [Hpiece ->]]].
    exists piece. repeat split; auto. apply includes_substring. exact Hinc.
  - intros [piece [Hin [Hne Hsub]]].
    exists (toLowerCase rt (trim piece)). split.
    + apply parseTier_In. split; [exact Hne | exists piece; auto].
    + apply includes_substring. exact Hsub.
Qed.

Lemma tierHit_dec (rt : JsRuntime) (t name : jsstring) :
  existsb (fun m => includes name m) (parseTier rt t) = false <-> ~ tierHit rt t name.
Proof.
  rewrite <- tierHit_existsb.
  destruct (existsb _ _); split; congruence.
Qed.

(** C5 -- For every media name and tier configuration: a falsy name (empty
    or missing) scores 3; otherwise the name is lower-cased and trimmed and
    the score is 10 if it contains an entry of tier 1, else 8 for tier 2,
    else 5 for tier 3, else 3, where the entries of a tier are the pieces
    of the list cut at [,] and [，], trimmed, lower-cased and not empty
    ([tierHit]), and containing means having the entry as a substring.  In
    particular a name that hits tier 1 and tier 3 scores 10. *)
Theorem getMediaTierScore_spec (rt : JsRuntime) (ts : Tiers) (mediaName : JsVal) :
  let name := trim (toLowerCase rt (ToString rt mediaName)) in
  let score := getMediaTierScore rt ts mediaName in
  (truthy mediaName = false -> score = 3%float) /\
  getMediaTierScore rt ts (JString []) = 3%float /\
  getMediaTierScore rt ts JUndefined = 3%float /\
  (truthy mediaName = true ->
     (tierHit rt (tier1 ts) name -> score = 10%float) /\
     (~ tierHit rt (tier1 ts) name -> tierHit rt (tier2 ts) name ->
        score = 8%float) /\
     (~ tierHit rt (tier1 ts) name -> ~ tierHit rt (tier2 ts) name ->
        tierHit rt (tier3 ts) name -> score = 5%float) /\
     (~ tierHit rt (tier1 ts) name -> ~ tierHit rt (tier2 ts) name ->
        ~ tierHit rt (tier3 ts) name -> score = 3%float) /\
     (tierHit rt (tier1 ts) name -> tierHit rt (tier3 ts) name ->
        score = 10%float /\ score <> 5%float)) /\
  (forall t p, In p (parseTier rt t) <->
     p <> [] /\ exists piece, In piece (split isComma t) /\
                              p = toLowerCase rt (trim piece)) /\
  (forall t, exists seps,
     Forall (fun c => c = 44%N \/ c = 0xFF0C%N) seps /\
     unsplit (split isComma t) seps = t /\
     Forall (Forall (fun c => c <> 44%N /\ c <> 0xFF0C%N)) (split isComma t)).
Proof.
  intros name score. subst name score.
  assert (H510 : 10%float <> 5%float).
  { intros H. apply (f_equal Prim2SF) in H. vm_compute in H. discriminate. }
  split; [|split; [|split; [|split; [|split]]]].
  - intros Hf. unfold getMediaTierScore. rewrite Hf. reflexivity.
  - reflexivity.
  - reflexivity.
  - intros Ht. unfold getMediaTierScore. rewrite Ht. simpl negb. cbv iota.
    repeat split.
    + intros H1. apply tierHit_existsb in H1. rewrite H1. reflexivity.
    + intros H1 H2. apply tierHit_dec in H1. apply tierHit_existsb in H2.
      rewrite H1, H2. reflexivity.
    + intros H1 H2 H3. apply tierHit_dec in H1. apply tierHit_dec in H2.
      apply tierHit_existsb in H3. rewrite H1, H2, H3. reflexivity.
    + intros H1 H2 H3. apply tierHit_dec in H1. apply tierHit_dec in H2.
      apply tierHit_dec in H3. rewrite H1, H2, H3. reflexivity.
    + apply tierHit_existsb in H. rewrite H. reflexivity.
    + apply tierHit_existsb in H. rewrite H. exact H510.
  - intros t p. apply parseTier_In.
  - intros t. destruct (split_unsplit isComma t) as (seps & Hs & _ & Hu & Hp).
    exists seps. repeat split; auto.
    + eapply Forall_impl; [|exact Hs]. intros c Hc. unfold isComma in Hc.
      apply orb_true_iff in Hc. destruct Hc as [Hc|Hc];
        apply N.eqb_eq in Hc; auto.
    + eapply Forall_impl; [|exact Hp]. intros piece Hpiece.
      eapply Forall_impl; [|exact Hpiece]. intros c Hc. unfold isComma in Hc.
      apply orb_false_iff in Hc. destruct Hc as [Hc1 Hc2].
      apply N.eqb_neq in Hc1. apply N.eqb_neq in Hc2. auto.
Qed.

(** C5, on an example: "People's Daily Online" contains the tier-1 entry
    "people's daily" and the tier-3 entry "daily"; it scores 10. *)
Example getMediaTierScore_precedence_example :
  getMediaTierScore exampleRuntime (tiers exampleConfig)
    (JString (utf16 "  People's Daily Online ")) = 10%float
  /\ getMediaTierScore exampleRuntime (tiers exampleConfig)
    (JString (utf16 "Evening daily")) = 5%float
  /\ getMediaTierScore exampleRuntime (tiers exampleConfig)
    (JString (utf16 "sohu.com")) = 8%float
  /\ getMediaTierScore exampleRuntime (tiers exampleConfig)
    (JString (utf16 "未知")) = 3%float.
Proof. repeat split; vm_compute; reflexivity. Qed.

(* ================================================================== *)
(** * Numeric metrics *)
(* ================================================================== *)

Lemma float_neq (x y : float) : Prim2SF x <> Prim2SF y -> x <> y.
Proof. intros H E. apply H. rewrite E. reflexivity. Qed.

(** C7 -- [cleanNum] on the inputs of the claim.  The [k] of "2.5k" is
    replaced by the text "000", which gives "2.5000" and the number 2.5,
    not 2500; a [k] after an integer does multiply by 1000.  "1,234" loses
    its comma and is 1234, and a string without digits is 0. *)
Theorem cleanNum_examples (rt : JsRuntime) :
  cleanNum rt (JString (utf16 "2.5k")) = 2.5%float /\
  cleanNum rt (JString (utf16 "2.5k")) <> 2500%float /\
  cleanNum rt (JString (utf16 "2k")) = 2000%float /\
  cleanNum rt (JString (utf16 "1,234")) = 1234%float /\
  cleanNum rt (JString (utf16 "n/a")) = 0%float /\
  cleanNum rt (JString []) = 0%float.
Proof.
  repeat split; try (vm_compute; reflexivity).
  apply float_neq. vm_compute. discriminate.
Qed.

(* ================================================================== *)
(** * Score composition *)
(* ================================================================== *)

Lemma composeRecord_rubric rt title mediaName volQuality tierScore aiRes :
  composedByRubric rt (composeRecord rt title mediaName volQuality tierScore aiRes).
Proof. unfold composedByRubric, composeRecord. simpl. auto. Qed.

Lemma composeRecord_subscores rt title mediaName volQuality tierScore aiRes :
  let r := composeRecord rt title mediaName volQuality tierScore aiRes in
  核心信息匹配 r = km_score aiRes /\
  获客效能 r = acquisition_score aiRes /\
  受众精准度 r = audience_precision_score aiRes /\
  传播质量 r = volQuality /\
  媒体分级 r = tierScore /\
  评价 r = comment aiRes.
Proof. simpl. auto 6. Qed.

(* ================================================================== *)
(** * The retry loop *)
(* ================================================================== *)

Section RetryLoop.
Variables (env : Env) (rq : Request).

(** The loop stops at the first attempt [n] that is not a rate-limit
    failure, or at attempt [retries] at the latest; [n] pauses precede
    it. *)
Lemma retryLoop_runs (retries : nat) :
  forall (backoffMs : Z) (w : World),
  exists n,
    (n <= retries)%nat /\
    (forall j, (j < n)%nat -> rateLimitedAt env rq w j = true) /\
    ((n < retries)%nat -> rateLimitedAt env rq w n = false) /\
    retryLoop env rq retries backoffMs w =
      (attemptFrom env rq w n,
       {| calls := calls w + n + 1;
          trace := trace w ++ attemptsTrace rq n backoffMs |}).
Proof.
  induction retries as [|r IH]; intros backoffMs w.
  - exists 0%nat. repeat split; try lia.
    simpl. unfold callRemote, attemptFrom.
    rewrite !Nat.add_0_r, Nat.add_1_r.
    destruct (attemptResult _); reflexivity.
  - simpl. unfold callRemote.
    destruct (attemptResult (generateContent env (calls w) rq)) as [e|res] eqn:H0.
    + destruct (isRateLimit e) eqn:Hrl.
      * set (w1 := delay backoffMs
                     {| calls := S (calls w); trace := trace w ++ [ECall rq] |}).
        destruct (IH (backoffMs * 2)%Z w1) as (n & Hn & Hlt & Hstop & Hrun).
        assert (Hshift : forall j, attemptFrom env rq w1 j = attemptFrom env rq w (S j)).
        { intros j. unfold attemptFrom, w1. simpl.
          rewrite Nat.add_succ_r. reflexivity. }
        exists (S n). repeat split.
        -- lia.
        -- intros [|j] Hj.
           ++ unfold rateLimitedAt, attemptFrom. rewrite Nat.add_0_r, H0. exact Hrl.
           ++ unfold rateLimitedAt. rewrite <- Hshift. apply Hlt. lia.
        -- intros Hn'. unfold rateLimitedAt. rewrite <- Hshift.
           apply Hstop. lia.
        -- rewrite Hrun, Hshift. unfold w1. simpl.
           rewrite <- !app_assoc. simpl.
           do 2 f_equal. lia.
      * exists 0%nat. repeat split; try lia.
        -- intros _. unfold rateLimitedAt, attemptFrom.
           rewrite Nat.add_0_r, H0. exact Hrl.
        -- unfold attemptFrom. rewrite !Nat.add_0_r, Nat.add_1_r, H0. reflexivity.
    + exists 0%nat. repeat split; try lia.
      * intros _. unfold rateLimitedAt, attemptFrom.
        rewrite Nat.add_0_r, H0. reflexivity.
      * unfold attemptFrom. rewrite !Nat.add_0_r, Nat.add_1_r, H0. reflexivity.
Qed.
End RetryLoop.

Lemma sleeps_app (a b : list Event) : sleeps (a ++ b) = sleeps a ++ sleeps b.
Proof.
  induction a as [|[] a IH]; simpl; rewrite ?IH; reflexivity.
Qed.

Lemma remoteCalls_app (a b : list Event) :
  remoteCalls (a ++ b) = remoteCalls a ++ remoteCalls b.
Proof.
  induction a as [|[] a IH]; simpl; rewrite ?IH; reflexivity.
Qed.

Lemma progressValues_app (a b : list Event) :
  progressValues (a ++ b) = progressValues a ++ progressValues b.
Proof.
  induction a as [|[] a IH]; simpl; rewrite ?IH; reflexivity.
Qed.

Lemma sleeps_attemptsTrace (rq : Request) (n : nat) :
  forall b, sleeps (attemptsTrace rq n b) =
            map (fun j => (b * 2 ^ Z.of_nat j)%Z) (seq 0 n).
Proof.
  induction n as [|n IH]; intros b; [reflexivity|].
  simpl attemptsTrace. simpl sleeps. rewrite IH.
  simpl seq. simpl map. f_equal; [lia|].
  rewrite <- seq_shift, map_map. apply map_ext. intros j.
  rewrite Nat2Z.inj_succ, Z.pow_succ_r by lia. lia.
Qed.

Lemma remoteCalls_attemptsTrace (rq : Request) (n : nat) :
  forall b, remoteCalls (attemptsTrace rq n b) = repeat rq (S n).
Proof.
  induction n as [|n IH]; intros b; [reflexivity|].
  simpl attemptsTrace. simpl remoteCalls. rewrite IH. reflexivity.
Qed.

Lemma progressValues_attemptsTrace (rq : Request) (n : nat) :
  forall b, progressValues (attemptsTrace rq n b) = [].
Proof.
  induction n as [|n IH]; intros b; [reflexivity|].
  simpl. apply IH.
Qed.

(** C2 -- The retry policy of [analyzeWithGemini], for a present API key
    and a string content.  Let attempt [j] be the [j]-th call made from the
    current world on.  There is an [n <= 3] such that attempts [0 .. n-1]
    all failed with a rate-limit error, attempt [n] is the one whose result
    is returned, and [n < 3] only if attempt [n] is not a rate-limit
    failure; exactly [n + 1] calls are made, separated by the [n] pauses
    2000, 4000, 8000 (the first [n] of them), each before the next attempt.
    Hence: (a) a failure that is not classified as rate limiting is thrown
    at once, without pause or further call; (b) a success after three
    rate-limit failures is returned after pauses of 2000 + 4000 + 8000 =
    14000 ms; (c) after four rate-limit failures the fourth one is thrown;
    (d) no run makes more than four calls. *)
Theorem analyzeWithGemini_retry_policy
    (rt : JsRuntime) (env : Env) (content : jsstring) (mode : AudienceMode)
    (keyMessage desc : jsstring) (mediaName : JsVal) (w : World)
    (Hkey : apiKeyMissing (API_KEY env) = false) :
  let rq := promptOf mediaName mode keyMessage desc content in
  let run := analyzeWithGemini rt env (JString content) mode keyMessage desc mediaName w in
  let new := skipn (List.length (trace w)) (trace (snd run)) in
  (exists n,
     (n <= 3)%nat /\
     (forall j, (j < n)%nat -> rateLimitedAt env rq w j = true) /\
     ((n < 3)%nat -> rateLimitedAt env rq w n = false) /\
     fst run = attemptFrom env rq w n /\
     trace (snd run) = trace w ++ attemptsTrace rq n 2000 /\
     remoteCalls new = repeat rq (S n) /\
     sleeps new = firstn n [2000; 4000; 8000]%Z) /\
  (forall e, attemptFrom env rq w 0 = inl e -> isRateLimit e = false ->
     fst run = inl e /\ new = [ECall rq]) /\
  (forall r, rateLimitedAt env rq w 0 = true -> rateLimitedAt env rq w 1 = true ->
     rateLimitedAt env rq w 2 = true -> attemptFrom env rq w 3 = inr r ->
     fst run = inr r /\ sleeps new = [2000; 4000; 8000]%Z /\
     (14000 <= sumZ (sleeps new))%Z) /\
  (forall e, rateLimitedAt env rq w 0 = true -> rateLimitedAt env rq w 1 = true ->
     rateLimitedAt env rq w 2 = true -> attemptFrom env rq w 3 = inl e ->
     fst run = inl e /\ List.length (remoteCalls new) = 4%nat) /\
  (List.length (remoteCalls new) <= 4)%nat.
Proof.
  intros rq run new.
  destruct (retryLoop_runs env rq 3 2000 w) as (n & Hn & Hlt & Hstop & Hrun).
  assert (Erun : run = (attemptFrom env rq w n,
                        {| calls := calls w + n + 1;
                           trace := trace w ++ attemptsTrace rq n 2000 |})).
  { unfold run, analyzeWithGemini. rewrite Hkey. exact Hrun. }
  assert (Enew : new = attemptsTrace rq n 2000).
  { unfold new. rewrite Erun. simpl.
    rewrite skipn_app, skipn_all, Nat.sub_diag. reflexivity. }
  assert (Hsl : sleeps new = firstn n [2000; 4000; 8000]%Z).
  { rewrite Enew, sleeps_attemptsTrace.
    destruct n as [|[|[|[|n]]]]; try lia; reflexivity. }
  assert (Hcalls : remoteCalls new = repeat rq (S n)).
  { rewrite Enew. apply remoteCalls_attemptsTrace. }
  assert (Hdet : forall m, (m <= 3)%nat ->
            (forall j, (j < m)%nat -> rateLimitedAt env rq w j = true) ->
            ((m < 3)%nat -> rateLimitedAt env rq w m = false) -> n = m).
  { intros m Hm Hmlt Hmstop.
    destruct (Nat.lt_trichotomy n m) as [Hc|[Hc|Hc]]; [|exact Hc|].
    - specialize (Hmlt n Hc). rewrite Hstop in Hmlt by lia. discriminate.
    - specialize (Hlt m Hc). rewrite Hmstop in Hlt by lia. discriminate. }
  split; [|split; [|split; [|split]]].
  - exists n. rewrite Erun. simpl. repeat split; auto.
  - intros e He Hrl.
    assert (n = 0)%nat as ->.
    { apply Hdet; [lia | intros j Hj; lia |].
      intros _. unfold rateLimitedAt. rewrite He. exact Hrl. }
    rewrite Erun, Enew. simpl. split; [exact He | reflexivity].
  - intros r H0 H1 H2 H3.
    assert (n = 3)%nat as ->.
    { apply Hdet; [lia | | lia].
      intros [|[|[|j]]] Hj; auto; lia. }
    rewrite Hsl, Erun. simpl fst.
    split; [exact H3|]. split; [reflexivity|].
    vm_compute. discriminate.
  - intros e H0 H1 H2 H3.
    assert (n = 3)%nat as ->.
    { apply Hdet; [lia | | lia].
      intros [|[|[|j]]] Hj; auto; lia. }
    rewrite Hcalls, Erun. simpl. split; [exact H3 | reflexivity].
  - rewrite Hcalls, repeat_length. lia.
Qed.

(** C2, witness: an endpoint that answers 429, RESOURCE_EXHAUSTED, 429 and
    then the scores; the scores are returned after pauses of 2000, 4000 and
    8000 ms. *)
Lemma analyzeWithGemini_retry_policy_witness :
  let run := analyzeWithGemini exampleRuntime throttledEnv
               (JString (utf16 "Clinics offer free checks this month."))
               PATIENT (utf16 "early screening") (utf16 "book a consultation")
               (JString (utf16 "Sohu Health")) startWorld in
  fst run = inr exampleAnswer /\
  sleeps (skipn (List.length (trace startWorld)) (trace (snd run)))
    = [2000; 4000; 8000]%Z.
Proof.
  pose proof (analyzeWithGemini_retry_policy exampleRuntime throttledEnv
                (utf16 "Clinics offer free checks this month.")
                PATIENT (utf16 "early screening") (utf16 "book a consultation")
                (JString (utf16 "Sohu Health")) startWorld
                ltac:(vm_compute; reflexivity)) as (_ & _ & H & _).
  destruct (H exampleAnswer ltac:(vm_compute; reflexivity)
              ltac:(vm_compute; reflexivity) ltac:(vm_compute; reflexivity)
              ltac:(vm_compute; reflexivity)) as (Hres & Hsl & _).
  split; [exact Hres | exact Hsl].
Defined.

(* ================================================================== *)
(** * One row of the batch *)
(* ================================================================== *)

Lemma truthy_js_or (a b : JsVal) : truthy (a ||| b)%js = truthy a || truthy b.
Proof. unfold js_or. destruct (truthy a) eqn:Ha; simpl; [exact Ha | reflexivity]. Qed.

(** The media name of a row is never falsy: it is a truthy cell of one of
    the two columns, or the constant "未知". *)
Lemma rowMediaName_truthy (row : Row) : truthy (rowMediaName row) = true.
Proof.
  unfold rowMediaName. rewrite !truthy_js_or. simpl. apply orb_true_r.
Qed.


Lemma rowTitle_truthy (rt : JsRuntime) (row : Row) (title : JsVal) :
  rowTitle rt row = inr title -> truthy title = true.
Proof.
  unfold rowTitle.
  destruct (truthy (col row "标题" ||| col row "Title")%js) eqn:Ht.
  - intros H. injection H as <-. exact Ht.
  - destruct (optSubstring20 rt (col row "正文")); [discriminate|].
    intros H. injection H as <-. rewrite truthy_js_or. apply orb_true_r.
Qed.

Lemma rowContent_truthy (row : Row) (title : JsVal) :
  truthy title = true -> truthy (rowContent row title) = true.
Proof.
  intros Ht. unfold rowContent. rewrite !truthy_js_or, Ht.
  rewrite orb_true_r. reflexivity.
Qed.

(** With a truthy content the fetch block is skipped. *)
Lemma resolveContent_truthy rt env content url w :
  truthy content = true -> resolveContent rt env content url w = (inr content, w).
Proof. intros H. unfold resolveContent. rewrite H. reflexivity. Qed.

(** With a truthy media name the guard holds and the scorer is called. *)
Lemma scoreRow_calls rt env cfg i content mediaName w :
  truthy mediaName = true ->
  scoreRow rt env cfg i content mediaName w =
    (afterCatch (fst (analyzeWithGemini rt env content (audienceMode cfg)
                        (projectKeyMessage cfg) (projectDesc cfg) mediaName
                        (if (0 <? i)%nat then delay 800 w else w))),
     snd (analyzeWithGemini rt env content (audienceMode cfg)
            (projectKeyMessage cfg) (projectDesc cfg) mediaName
            (if (0 <? i)%nat then delay 800 w else w))).
Proof.
  intros H. unfold scoreRow. rewrite H, orb_true_r.
  destruct (analyzeWithGemini _ _ _ _ _ _ _ _). reflexivity.
Qed.

(** A row whose title expression does not throw is scored and recorded. *)
Lemma processRow_titled rt env cfg i row w title :
  rowTitle rt row = inr title ->
  processRow rt env cfg i row w =
    (inr (recordOfRow rt cfg row title
            (afterCatch (fst (rowScoring rt env cfg i row title w)))),
     snd (rowScoring rt env cfg i row title w)).
Proof.
  intros Ht. unfold processRow. rewrite Ht.
  rewrite resolveContent_truthy
    by (apply rowContent_truthy; eapply rowTitle_truthy; eassumption).
  rewrite scoreRow_calls by apply rowMediaName_truthy.
  reflexivity.
Qed.

Lemma processRow_untitled rt env cfg i row w e :
  rowTitle rt row = inl e -> processRow rt env cfg i row w = (inl e, w).
Proof. intros Ht. unfold processRow. rewrite Ht. reflexivity. Qed.

Lemma titleOk_inr rt row : titleOk rt row = true -> exists t, rowTitle rt row = inr t.
Proof. unfold titleOk. destruct (rowTitle rt row); [discriminate | eauto]. Qed.

(** The scorer adds calls and pauses to the trace, never progress. *)
Lemma analyzeWithGemini_trace rt env content mode km desc media w :
  exists evs,
    trace (snd (analyzeWithGemini rt env content mode km desc media w)) = trace w ++ evs /\
    progressValues evs = [].
Proof.
  unfold analyzeWithGemini.
  destruct (apiKeyMissing (API_KEY env)).
  { exists []. rewrite app_nil_r. auto. }
  destruct content; try (exists []; rewrite app_nil_r; auto; fail).
  destruct (retryLoop_runs env (promptOf media mode km desc s) 3 2000 w)
    as (n & _ & _ & _ & ->).
  eexists. split; [reflexivity | apply progressValues_attemptsTrace].
Qed.

Lemma rowScoring_progress rt env cfg i row title w :
  progressValues (trace (snd (rowScoring rt env cfg i row title w))) =
  progressValues (trace w).
Proof.
  unfold rowScoring.
  destruct (analyzeWithGemini_trace rt env (rowContent row title) (audienceMode cfg)
              (projectKeyMessage cfg) (projectDesc cfg) (rowMediaName row)
              (if (0 <? i)%nat then delay 800 w else w)) as (evs & -> & Hp).
  rewrite progressValues_app, Hp, app_nil_r.
  destruct (0 <? i)%nat; [|reflexivity].
  simpl. rewrite progressValues_app. simpl. apply app_nil_r.
Qed.

(* ================================================================== *)
(** * The loop over the rows *)
(* ================================================================== *)

Lemma forRows_app rt env cfg total (rows1 rows2 : list Row) :
  forall i acc w,
  forRows rt env cfg total i (rows1 ++ rows2) acc w =
    match forRows rt env cfg total i rows1 acc w with
    | (inr acc', w') =>
        forRows rt env cfg total (i + List.length rows1) rows2 acc' w'
    | (inl e, w') => (inl e, w')
    end.
Proof.
  induction rows1 as [|row rows1 IH]; intros i acc w; simpl.
  - rewrite Nat.add_0_r. reflexivity.
  - destruct (processRow rt env cfg i row w) as [[e|rec] w1]; [reflexivity|].
    rewrite IH. rewrite Nat.add_succ_r. reflexivity.
Qed.

(** When no title expression throws, the loop runs to its end: one record
    per row is appended, and one progress value per row is emitted. *)
Lemma forRows_completes rt env cfg total (rows : list Row) :
  forallb (titleOk rt) rows = true ->
  forall i acc w,
  exists recs w',
    forRows rt env cfg total i rows acc w = (inr (acc ++ recs), w') /\
    List.length recs = List.length rows /\
    progressValues (trace w') =
      progressValues (trace w)
        ++ map (fun k => progressAfter k total) (seq i (List.length rows)).
Proof.
  induction rows as [|row rows IH]; intros Hok i acc w.
  - exists [], w. simpl. rewrite !app_nil_r. auto.
  - simpl in Hok. apply andb_true_iff in Hok. destruct Hok as [Hrow Hok].
    destruct (titleOk_inr _ _ Hrow) as [title Ht].
    simpl. rewrite (processRow_titled _ _ _ _ _ _ _ Ht).
    destruct (IH Hok (S i)
                (acc ++ [recordOfRow rt cfg row title
                           (afterCatch (fst (rowScoring rt env cfg i row title w)))])
                (setProgress (progressAfter i total)
                   (snd (rowScoring rt env cfg i row title w))))
      as (recs & w' & Hrun & Hlen & Hprog).
    eexists (_ :: recs), w'. split; [|split].
    + rewrite Hrun, <- app_assoc. reflexivity.
    + simpl. rewrite Hlen. reflexivity.
    + rewrite Hprog. simpl. rewrite progressValues_app, rowScoring_progress.
      simpl. rewrite <- app_assoc. reflexivity.
Qed.

Lemma forallb_firstn {A} (f : A -> bool) (l : list A) (n : nat) :
  forallb f l = true -> forallb f (firstn n l) = true.
Proof.
  revert n. induction l as [|a l IH]; intros [|n] H; simpl; auto.
  simpl in H. apply andb_true_iff in H. destruct H as [-> H]. simpl. auto.
Qed.

Lemma forallb_skipn {A} (f : A -> bool) (l : list A) (n : nat) :
  forallb f l = true -> forallb f (skipn n l) = true.
Proof.
  revert n. induction l as [|a l IH]; intros [|n] H; simpl; auto.
  simpl in H. apply andb_true_iff in H. destruct H as [_ H]. auto.
Qed.

Lemma nth_error_split_at {A} (l : list A) (j : nat) (a : A) :
  nth_error l j = Some a ->
  l = firstn j l ++ a :: skipn (S j) l /\ List.length (firstn j l) = j.
Proof.
  revert j. induction l as [|x l IH]; intros [|j] H; simpl in *; try discriminate.
  - injection H as ->. auto.
  - destruct (IH j H) as [E L]. rewrite <- E, L. auto.
Qed.

(** The record of row [j] of a loop that runs to its end: it is built from
    the result of the scoring call made in the world in which the
    iteration starts. *)
Lemma forRows_record_at rt env cfg total (json : list Row) (w0 : World) :
  forallb (titleOk rt) json = true ->
  exists results w',
    forRows rt env cfg total 0 json [] w0 = (inr results, w') /\
    List.length results = List.length json /\
    progressValues (trace w') =
      progressValues (trace w0)
        ++ map (fun k => progressAfter k total) (seq 0 (List.length json)) /\
    forall j row, nth_error json j = Some row ->
      exists title,
        rowTitle rt row = inr title /\
        nth_error results j =
          Some (recordOfRow rt cfg row title
                  (afterCatch (fst (rowScoring rt env cfg j row title
                     (snd (forRows rt env cfg total 0 (firstn j json) [] w0)))))).
Proof.
  intros Hok.
  destruct (forRows_completes rt env cfg total json Hok 0 [] w0)
    as (results & w' & Hrun & Hlen & Hprog).
  exists results, w'. simpl in Hrun.
  split; [exact Hrun|]. split; [exact Hlen|]. split; [exact Hprog|].
  intros j row Hj.
  destruct (nth_error_split_at _ _ _ Hj) as [Esplit Lj].
  assert (Hrow : titleOk rt row = true).
  { rewrite forallb_forall in Hok. apply Hok. eapply nth_error_In; eassumption. }
  destruct (titleOk_inr _ _ Hrow) as [title Ht]. exists title. split; [exact Ht|].
  destruct (forRows_completes rt env cfg total (firstn j json)
              (forallb_firstn _ _ j Hok) 0 [] w0)
    as (recs1 & w1 & Hrun1 & Hlen1 & _).
  rewrite Hrun1. simpl snd.
  assert (Hrest : forallb (titleOk rt) (skipn (S j) json) = true)
    by (apply forallb_skipn; exact Hok).
  remember (skipn (S j) json) as rest eqn:Erest.
  rewrite Esplit, forRows_app, Hrun1 in Hrun. simpl in Hrun.
  rewrite Lj in Hrun.
  rewrite (processRow_titled _ _ _ _ _ _ _ Ht) in Hrun.
  destruct (forRows_completes rt env cfg total rest Hrest (S j)
              (recs1 ++ [recordOfRow rt cfg row title
                 (afterCatch (fst (rowScoring rt env cfg j row title w1)))])
              (setProgress (progressAfter j total)
                 (snd (rowScoring rt env cfg j row title w1))))
    as (recs2 & w2 & Hrun2 & _ & _).
  rewrite Hrun2 in Hrun. injection Hrun as Hres _.
  rewrite <- Hres, <- app_assoc. simpl.
  rewrite nth_error_app2 by lia.
  rewrite Hlen1, Lj, Nat.sub_diag. reflexivity.
Qed.

Lemma batch_record_at rt env cfg (json : list Row) (w : World) :
  forallb (titleOk rt) json = true ->
  exists results w',
    handleExcelFile rt env cfg json w =
      ({| batchResults := Some results; errorLog := [] |}, w') /\
    List.length results = List.length json /\
    progressValues (trace w') =
      progressValues (trace w)
        ++ 0%Z :: map (fun k => progressAfter k (List.length json))
                      (seq 0 (List.length json)) /\
    forall j row, nth_error json j = Some row ->
      exists title,
        rowTitle rt row = inr title /\
        nth_error results j =
          Some (recordOfRow rt cfg row title
                  (afterCatch (fst (rowScoring rt env cfg j row title
                                      (worldAt rt env cfg json w j))))).
Proof.
  intros Hok. unfold handleExcelFile, worldAt.
  destruct (forRows_record_at rt env cfg (List.length json) json
              (setProgress 0 w) Hok) as (results & w' & Hrun & Hlen & Hprog & Hrec).
  exists results, w'. rewrite Hrun.
  split; [reflexivity|]. split; [exact Hlen|]. split; [|exact Hrec].
  rewrite Hprog. simpl. rewrite progressValues_app. simpl.
  rewrite <- app_assoc. reflexivity.
Qed.

(* ================================================================== *)
(** * The progress percentage *)
(* ================================================================== *)

Lemma progressAfter_div (i total : nat) :
  (0 < total)%nat ->
  progressAfter i total =
    ((200 * Z.of_nat (i + 1) + Z.of_nat total) / (2 * Z.of_nat total))%Z.
Proof.
  intros Ht. unfold progressAfter, Math_roundQ.
  rewrite Zdiv_Qdiv. apply Qfloor_comp.
  rewrite !inject_Z_plus, !inject_Z_mult.
  assert (Hne : ~ (inject_Z (Z.of_nat total) == 0)%Q).
  { change 0%Q with (inject_Z 0). rewrite inject_Z_injective. lia. }
  field. exact Hne.
Qed.

Lemma progressAfter_mono (i j total : nat) :
  (0 < total)%nat -> (i <= j)%nat ->
  (progressAfter i total <= progressAfter j total)%Z.
Proof.
  intros Ht Hij. rewrite !progressAfter_div by exact Ht.
  apply Z.div_le_mono; lia.
Qed.

Lemma progressAfter_last (total : nat) :
  (0 < total)%nat -> progressAfter (total - 1) total = 100%Z.
Proof.
  intros Ht. rewrite progressAfter_div by exact Ht.
  replace (total - 1 + 1)%nat with total by lia.
  symmetry. apply Z.div_unique with (r := Z.of_nat total); lia.
Qed.

Lemma progressAfter_nonneg (i total : nat) :
  (0 < total)%nat -> (0 <= progressAfter i total)%Z.
Proof.
  intros Ht. rewrite progressAfter_div by exact Ht.
  apply Z.div_pos; lia.
Qed.


(** The binary64 evaluation of the expression at row 199 of 200. *)
Lemma progress_binary64_199_of_200 :
  Math_round ((199 / 200) * 100)%float = 100%float.
Proof. vm_compute. reflexivity. Qed.


(* ================================================================== *)
(** * The batch: progress *)
(* ================================================================== *)






(* ================================================================== *)
(** * The batch: records *)
(* ================================================================== *)






(** C1 -- Every record of a batch that runs to its end satisfies the
    published rubric: its three composites are the two-decimal formatting
    of [0.6 * 传播质量 + 0.4 * 媒体分级] (volume), of
    [0.6 * 核心信息匹配 + 0.4 * 受众精准度] (true demand) and of
    [0.5 * true demand + 0.2 * 获客效能 + 0.3 * volume] (total), computed
    from the stored sub-scores; the sub-scores themselves are stored as
    they are: the three numbers the scorer returned for the row, the value
    of [calculateVolumeQuality] and the value of [getMediaTierScore].  For
    km = 8, acq = 6, aud = 7, volume quality 5 and tier 10 the composites
    are "7.00", "7.60" and "7.10". *)
Theorem batch_scores_follow_rubric
    (rt : JsRuntime) (env : Env) (cfg : Config) (json : list Row) (w : World)
    (Hok : forallb (titleOk rt) json = true) :
  (exists results,
     batchResults (fst (handleExcelFile rt env cfg json w)) = Some results /\
     List.length results = List.length json /\
     forall j row, nth_error json j = Some row ->
       exists rec title,
         nth_error results j = Some rec /\
         rowTitle rt row = inr title /\
         composedByRubric rt rec /\
         传播质量 rec =
           calculateVolumeQuality rt (rowViews row) (JNumber (rowInteractions rt row)) /\
         媒体分级 rec = getMediaTierScore rt (tiers cfg) (rowMediaName row) /\
         forall r,
           fst (rowScoring rt env cfg j row title (worldAt rt env cfg json w j)) = inr r ->
           核心信息匹配 rec = km_score r /\
           获客效能 rec = acquisition_score r /\
           受众精准度 rec = audience_precision_score r) /\
  (forall title mediaName note,
     let rec := composeRecord rt title mediaName 5 10
                  {| km_score := 8; acquisition_score := 6;
                     audience_precision_score := 7; comment := note |} in
     声量 rec = utf16 "7.00" /\ 真需求 rec = utf16 "7.60" /\
     项目总分 rec = utf16 "7.10").
Proof.
  split.
  - destruct (batch_record_at rt env cfg json w Hok)
      as (results & w' & Hrun & Hlen & _ & Hrec).
    exists results. rewrite Hrun. split; [reflexivity|]. split; [exact Hlen|].
    intros j row Hj. destruct (Hrec j row Hj) as (title & Ht & Hr).
    eexists; exists title. split; [exact Hr|]. split; [exact Ht|].
    split; [apply composeRecord_rubric|].
    split; [reflexivity|]. split; [reflexivity|].
    intros r Hres. rewrite Hres. simpl. auto.
  - intros title mediaName note. vm_compute. auto.
Qed.

(** C1, witness: the four example rows. *)
Lemma batch_scores_follow_rubric_witness :
  exists results,
    batchResults (fst (handleExcelFile exampleRuntime exampleEnv exampleConfig
                         exampleRows startWorld)) = Some results /\
    List.length results = 4%nat.
Proof.
  destruct (proj1 (batch_scores_follow_rubric exampleRuntime exampleEnv exampleConfig
                     exampleRows startWorld ltac:(vm_compute; reflexivity)))
    as (results & Hres & Hlen & _).
  exists results. split; [exact Hres | exact Hlen].
Defined.

(** C3 -- The row that has neither media name nor title, text or link:
    its media name becomes "未知" and its title and content "无标题", so
    the guard [content || mediaName] holds, the endpoint is called with
    these two constants, and the record carries the answer of the
    endpoint, not the floor result. *)
Theorem bare_row_is_scored (rt : JsRuntime) (cfg : Config) :
  let run := handleExcelFile rt exampleEnv cfg [bareRow] startWorld in
  col bareRow "媒体名称" = JUndefined /\ col bareRow "媒体" = JUndefined /\
  col bareRow "正文" = JUndefined /\ col bareRow "Content" = JUndefined /\
  col bareRow "标题" = JUndefined /\ col bareRow "Title" = JUndefined /\
  rowMediaName bareRow = JString (utf16 "未知") /\
  rowTitle rt bareRow = inr (JString (utf16 "无标题")) /\
  rowContent bareRow (JString (utf16 "无标题")) = JString (utf16 "无标题") /\
  remoteCalls (trace (snd run)) =
    [promptOf (JString (utf16 "未知")) (audienceMode cfg) (projectKeyMessage cfg)
       (projectDesc cfg) (utf16 "无标题")] /\
  batchResults (fst run) =
    Some [recordOfRow rt cfg bareRow (JString (utf16 "无标题")) exampleAnswer] /\
  (forall rec, batchResults (fst run) = Some [rec] ->
     评价 rec = comment exampleAnswer /\ 评价 rec <> comment floorResult /\
     核心信息匹配 rec = 8%float /\ 获客效能 rec = 6%float /\
     受众精准度 rec = 7%float).
Proof.
  intros run.
  assert (Htitle : rowTitle rt bareRow = inr (JString (utf16 "无标题")))
    by (vm_compute; reflexivity).
  assert (Hres : batchResults (fst run) =
            Some [recordOfRow rt cfg bareRow (JString (utf16 "无标题")) exampleAnswer]).
  { unfold run, handleExcelFile. cbn [forRows List.length].
    rewrite (processRow_titled _ _ _ _ _ _ _ Htitle).
    replace (fst (rowScoring rt exampleEnv cfg 0 bareRow (JString (utf16 "无标题"))
                    (setProgress 0 startWorld)))
      with (@inr JsError _ exampleAnswer) by (vm_compute; reflexivity).
    reflexivity. }
  assert (Hcalls : remoteCalls (trace (snd run)) =
    [promptOf (JString (utf16 "未知")) (audienceMode cfg) (projectKeyMessage cfg)
       (projectDesc cfg) (utf16 "无标题")]).
  { unfold run, handleExcelFile. cbn [forRows List.length].
    rewrite (processRow_titled _ _ _ _ _ _ _ Htitle). cbn [snd].
    unfold setProgress at 1, emit. cbn [trace]. rewrite remoteCalls_app.
    replace (remoteCalls (trace (snd (rowScoring rt exampleEnv cfg 0 bareRow
                (JString (utf16 "无标题")) (setProgress 0 startWorld)))))
      with [promptOf (JString (utf16 "未知")) (audienceMode cfg)
              (projectKeyMessage cfg) (projectDesc cfg) (utf16 "无标题")]
      by (vm_compute; reflexivity).
    reflexivity. }
  repeat split; try (vm_compute; reflexivity); try exact Hres; try exact Hcalls.
  all: rewrite Hres in H; injection H as <-; try reflexivity.
  intros E. vm_compute in E. discriminate.
Qed.





(* ================================================================== *)
(** * Aggregation *)
(* ================================================================== *)

(** C9 as stated fails: a sheet without data rows gives an empty, non-null
    result list, and then every rubric average is [0 / 0 = NaN]; the
    summary cards show "NaN". *)
Lemma rubric_average_of_empty_batch_is_NaN :
  batchResults (fst (handleExcelFile exampleRuntime exampleEnv exampleConfig []
                       startWorld)) = Some [] /\
  (forall key, is_nan (avg exampleRuntime key []) = true) /\
  summaryMetrics exampleRuntime (Some []) =
    Some [utf16 "NaN"; utf16 "NaN"; utf16 "NaN"; utf16 "NaN"].
Proof.
  split; [reflexivity|]. split; [intros key; vm_compute; reflexivity|].
  vm_compute. reflexivity.
Qed.

(** C9 (amended) -- The rubric average is the sum of the parsed field
    values divided by the number of records, with no test of that number.
    A batch without rows yields the empty list, not null; on it every
    average is [0 / 0 = NaN], shown as "NaN" on the summary cards and
    passed as [NaN] to the radar chart, without any exception.  Only a null
    result set (no batch was run, or the batch was aborted) is treated as
    "no data": then neither cards nor chart data are produced. *)
Theorem rubric_average_unguarded (rt : JsRuntime) :
  (forall key results,
     avg rt key results =
       (fold_left (fun a b => a + parseFloat rt (field key b ||| JString (utf16 "0"))%js)
                  results 0
        / Z2float (Z.of_nat (List.length results)))%float) /\
  (forall env cfg w,
     batchResults (fst (handleExcelFile rt env cfg [] w)) = Some []) /\
  (forall key, avg rt key [] = nan) /\
  summaryMetrics rt (Some []) =
    Some [utf16 "NaN"; utf16 "NaN"; utf16 "NaN"; utf16 "NaN"] /\
  radarData rt (Some []) = Some [nan; nan; nan; nan; nan] /\
  summaryMetrics rt None = None /\
  radarData rt None = None.
Proof.
  repeat split; try reflexivity; try (vm_compute; reflexivity).
Qed.

(* ================================================================== *)
(** * The volume quality formula over the reals *)
(* ================================================================== *)

Section VolumeQualityReal.
Local Open Scope R_scope.







End VolumeQualityReal.

(* ================================================================== *)
(** * What a batch does to the outside world *)
(* ================================================================== *)

Lemma sumZ_app (a b : list Z) : sumZ (a ++ b) = (sumZ a + sumZ b)%Z.
Proof. induction a as [|x a IH]; simpl; [reflexivity | rewrite IH; lia]. Qed.

Lemma newEvents_app (w w' : World) (evs : list Event) :
  trace w' = trace w ++ evs -> newEvents w w' = evs.
Proof.
  intros H. unfold newEvents. rewrite H, skipn_app, skipn_all, Nat.sub_diag.
  reflexivity.
Qed.

(** The events of one run of the retry loop. *)
Lemma attemptsTrace_events (rq : Request) (n : nat) :
  forall b,
  Forall (fun ev => ev = ECall rq \/
                    exists j, (j < n)%nat /\ ev = ESleep (b * 2 ^ Z.of_nat j))
         (attemptsTrace rq n b).
Proof.
  induction n as [|n IH]; intros b; simpl.
  - constructor; [left; reflexivity | constructor].
  - constructor; [left; reflexivity|]. constructor.
    + right. exists 0%nat. split; [lia | f_equal; simpl; lia].
    + eapply Forall_impl; [|apply IH]. intros ev [H | (j & Hj & H)]; [left; exact H|].
      right. exists (S j). split; [lia|]. rewrite H. f_equal.
      rewrite Nat2Z.inj_succ, Z.pow_succ_r by lia. lia.
Qed.

Lemma sumZ_sleeps_attemptsTrace (rq : Request) (n : nat) :
  (n <= 3)%nat -> (sumZ (sleeps (attemptsTrace rq n 2000)) <= 14000)%Z.
Proof.
  intros Hn. destruct n as [|[|[|[|n]]]]; try lia; vm_compute; discriminate.
Qed.

(** What the scorer appends to the trace: nothing (missing key, or a
    content that is not a string), or the attempts of the retry loop. *)
Lemma analyzeWithGemini_events rt env content mode km desc media w :
  trace (snd (analyzeWithGemini rt env content mode km desc media w)) = trace w \/
  exists s n,
    content = JString s /\ (n <= 3)%nat /\
    trace (snd (analyzeWithGemini rt env content mode km desc media w)) =
      trace w ++ attemptsTrace (promptOf media mode km desc s) n 2000.
Proof.
  unfold analyzeWithGemini.
  destruct (apiKeyMissing (API_KEY env)); [left; reflexivity|].
  destruct content; try (left; reflexivity).
  destruct (retryLoop_runs env (promptOf media mode km desc s) 3 2000 w)
    as (n & Hn & _ & _ & ->).
  right. exists s, n. auto.
Qed.

Lemma batchEvent_weaken cfg (json json' : list Row) (ev : Event) :
  (forall row, In row json -> In row json') ->
  batchEvent cfg json ev -> batchEvent cfg json' ev.
Proof.
  intros Hsub. destruct ev; simpl; auto.
  intros [(row & Hin & Hm) H]. split; [exists row; auto | exact H].
Qed.

(** The events of one iteration of the loop. *)
Lemma processRow_events rt env cfg i row w :
  exists evs,
    trace (snd (processRow rt env cfg i row w)) = trace w ++ evs /\
    Forall (batchEvent cfg [row]) evs /\
    (List.length (remoteCalls evs) <= 4)%nat /\
    (sumZ (sleeps evs) <= (if (0 <? i)%nat then 800 else 0) + 14000)%Z /\
    progressValues evs = [].
Proof.
  destruct (rowTitle rt row) as [e|title] eqn:Ht.
  { rewrite (processRow_untitled _ _ _ _ _ _ _ Ht). exists [].
    rewrite app_nil_r. simpl. repeat split; auto; try lia.
    destruct (0 <? i)%nat; lia. }
  rewrite (processRow_titled _ _ _ _ _ _ _ Ht). cbn [snd]. unfold rowScoring.
  set (w1 := if (0 <? i)%nat then delay 800 w else w).
  assert (Hw1 : exists pre, trace w1 = trace w ++ pre /\
                  Forall (batchEvent cfg [row]) pre /\
                  remoteCalls pre = [] /\
                  sumZ (sleeps pre) = (if (0 <? i)%nat then 800 else 0)%Z /\
                  progressValues pre = []).
  { unfold w1. destruct (0 <? i)%nat.
    - exists [ESleep 800]. simpl. repeat split; auto.
      constructor; [simpl; auto | constructor].
    - exists []. rewrite app_nil_r. simpl. repeat split; auto. }
  destruct Hw1 as (pre & Hpre & Fpre & Cpre & Spre & Ppre).
  destruct (analyzeWithGemini_events rt env (rowContent row title) (audienceMode cfg)
              (projectKeyMessage cfg) (projectDesc cfg) (rowMediaName row) w1)
    as [Hsame | (s & n & Hs & Hn & Hrun)].
  - exists pre. rewrite Hsame, Hpre. repeat split; auto.
    + rewrite Cpre. simpl. lia.
    + rewrite Spre. lia.
  - exists (pre ++ attemptsTrace (promptOf (rowMediaName row) (audienceMode cfg)
                      (projectKeyMessage cfg) (projectDesc cfg) s) n 2000).
    rewrite Hrun, Hpre, <- app_assoc. repeat split.
    + apply Forall_app. split; [exact Fpre|].
      eapply Forall_impl; [|apply attemptsTrace_events].
      intros ev [-> | (j & Hj & ->)].
      * unfold batchEvent, promptOf.
        cbn [rq_mediaName rq_audienceMode rq_keyMessage rq_projectDesc rq_content].
        repeat split; auto.
        -- exists row. split; [left; reflexivity | reflexivity].
        -- unfold substring0. rewrite length_firstn. apply Nat.le_min_l.
      * unfold batchEvent. destruct j as [|[|[|j]]]; try lia; auto.
    + rewrite remoteCalls_app, Cpre, remoteCalls_attemptsTrace.
      cbn [app]. rewrite repeat_length. lia.
    + rewrite sleeps_app, sumZ_app, Spre.
      pose proof (sumZ_sleeps_attemptsTrace
                    (promptOf (rowMediaName row) (audienceMode cfg)
                       (projectKeyMessage cfg) (projectDesc cfg) s) n Hn). lia.
    + rewrite progressValues_app, Ppre, progressValues_attemptsTrace. reflexivity.
Qed.

Lemma progressAfter_le_100 (i total : nat) :
  (i < total)%nat -> (progressAfter i total <= 100)%Z.
Proof.
  intros Hi. rewrite <- (progressAfter_last total) by lia.
  apply progressAfter_mono; lia.
Qed.

(** The events of the loop over [rows], whether it runs to its end or is
    left by an exception. *)
Lemma forRows_events rt env cfg total (json rows : list Row) :
  (forall row, In row rows -> In row json) ->
  forall i acc w,
  (i + List.length rows <= total)%nat ->
  exists evs,
    trace (snd (forRows rt env cfg total i rows acc w)) = trace w ++ evs /\
    Forall (batchEvent cfg json) evs /\
    (List.length (remoteCalls evs) <= 4 * List.length rows)%nat /\
    (sumZ (sleeps evs) <= pauseBound i (List.length rows))%Z.
Proof.
  induction rows as [|row rows IH]; intros Hsub i acc w Hi.
  - exists []. simpl. rewrite app_nil_r. repeat split; auto.
    unfold pauseBound. simpl. rewrite andb_false_r. lia.
  - simpl forRows.
    destruct (processRow_events rt env cfg i row w)
      as (evs1 & Htr1 & F1 & C1 & S1 & _).
    assert (F1' : Forall (batchEvent cfg json) evs1).
    { eapply Forall_impl; [|exact F1]. intros ev. apply batchEvent_weaken.
      intros r [<- | []]. apply Hsub. left. reflexivity. }
    assert (Hb : (sumZ (sleeps evs1) <= pauseBound i (S (List.length rows))
                    - pauseBound (S i) (List.length rows))%Z).
    { unfold pauseBound. rewrite Nat2Z.inj_succ.
      destruct i; cbn [Nat.eqb Nat.ltb Nat.leb andb] in *; lia. }
    destruct (processRow rt env cfg i row w) as [[e|rec] w1] eqn:Hp.
    + exists evs1. cbn [snd] in Htr1 |- *. repeat split; auto.
      * cbn [List.length]. lia.
      * assert (0 <= pauseBound (S i) (List.length rows))%Z; [|cbn [List.length]; lia].
        unfold pauseBound. cbn [Nat.eqb andb]. lia.
    + cbn [snd] in Htr1.
      destruct (IH (fun r Hr => Hsub r (or_intror Hr)) (S i) (acc ++ [rec])
                  (setProgress (progressAfter i total) w1) ltac:(simpl in Hi; lia))
        as (evs2 & Htr2 & F2 & C2 & S2).
      exists (evs1 ++ EProgress (progressAfter i total) :: evs2).
      rewrite Htr2. simpl trace. rewrite Htr1, <- !app_assoc. simpl.
      repeat split.
      * apply Forall_app. split; [exact F1'|]. constructor; [|exact F2].
        simpl in Hi |- *. split.
        -- apply progressAfter_nonneg. lia.
        -- apply progressAfter_le_100. lia.
      * rewrite remoteCalls_app. cbn [remoteCalls]. rewrite length_app.
        cbn [List.length]. lia.
      * rewrite sleeps_app. cbn [sleeps]. rewrite sumZ_app.
        cbn [List.length]. lia.
Qed.

(** The events of a whole batch. *)
Lemma handleExcelFile_events rt env cfg (json : list Row) (w : World) :
  exists evs,
    newEvents w (snd (handleExcelFile rt env cfg json w)) = EProgress 0 :: evs /\
    Forall (batchEvent cfg json) (EProgress 0 :: evs) /\
    (List.length (remoteCalls evs) <= 4 * List.length json)%nat /\
    (sumZ (sleeps evs) <= pauseBound 0 (List.length json))%Z.
Proof.
  destruct (forRows_events rt env cfg (List.length json) json json
              (fun r H => H) 0 [] (setProgress 0 w) ltac:(simpl; lia))
    as (evs & Htr & F & C & S).
  exists evs. split; [|split; [|split]]; auto.
  - apply newEvents_app. unfold handleExcelFile.
    destruct (forRows rt env cfg (List.length json) 0 json [] (setProgress 0 w))
      as [[e|results] w1]; simpl in Htr |- *; rewrite Htr, <- app_assoc; reflexivity.
  - constructor; [simpl; lia | exact F].
Qed.

(** X1 -- A batch never fetches the content proxy, whatever the rows and
    their URL columns are: the content of a row falls back to its title,
    which falls back to "无标题", so the test [!content] that guards the
    fetch never succeeds. *)
Theorem batch_never_fetches (rt : JsRuntime) (env : Env) (cfg : Config)
    (json : list Row) (w : World) (url : jsstring) :
  ~ In (EFetch url) (newEvents w (snd (handleExcelFile rt env cfg json w))).
Proof.
  destruct (handleExcelFile_events rt env cfg json w) as (evs & -> & F & _).
  intros Hin. rewrite Forall_forall in F. exact (F _ Hin).
Qed.

Lemma remoteCalls_In (evs : list Event) (rq : Request) :
  In rq (remoteCalls evs) <-> In (ECall rq) evs.
Proof.
  induction evs as [|[] evs IH]; simpl; try tauto.
  - rewrite IH. split; intros [H|H]; auto; [left; congruence | injection H; auto].
  - rewrite IH. split; [auto | intros [H|H]; [discriminate | auto]].
  - rewrite IH. split; [auto | intros [H|H]; [discriminate | auto]].
  - rewrite IH. split; [auto | intros [H|H]; [discriminate | auto]].
Qed.

(** X2 -- Every call of the AI endpoint made by a batch is made for a row
    of the sheet: it carries the media name of that row, the audience
    mode, key message and project description of the batch unchanged, and
    a content of at most 5000 code units. *)
Theorem batch_calls_carry_configuration (rt : JsRuntime) (env : Env) (cfg : Config)
    (json : list Row) (w : World) (rq : Request) :
  In rq (remoteCalls (newEvents w (snd (handleExcelFile rt env cfg json w)))) ->
  (exists row, In row json /\ rq_mediaName rq = rowMediaName row) /\
  rq_audienceMode rq = audienceMode cfg /\
  rq_keyMessage rq = projectKeyMessage cfg /\
  rq_projectDesc rq = projectDesc cfg /\
  (List.length (rq_content rq) <= 5000)%nat.
Proof.
  destruct (handleExcelFile_events rt env cfg json w) as (evs & -> & F & _).
  intros Hin. apply remoteCalls_In in Hin.
  rewrite Forall_forall in F. exact (F _ Hin).
Qed.

(** X2, witness: the call made for the first of the example rows. *)
Lemma batch_calls_carry_configuration_witness :
  let rq := promptOf (JString (utf16 "Xinhua Net")) (audienceMode exampleConfig)
              (projectKeyMessage exampleConfig) (projectDesc exampleConfig)
              (utf16 "Screening week opens") in
  In rq (remoteCalls (newEvents startWorld
           (snd (handleExcelFile exampleRuntime exampleEnv exampleConfig
                   exampleRows startWorld)))) /\
  rq_audienceMode rq = audienceMode exampleConfig /\
  (List.length (rq_content rq) <= 5000)%nat.
Proof.
  intros rq.
  assert (Hin : In rq (remoteCalls (newEvents startWorld
                  (snd (handleExcelFile exampleRuntime exampleEnv exampleConfig
                          exampleRows startWorld)))))
    by (vm_compute; left; reflexivity).
  split; [exact Hin|].
  destruct (batch_calls_carry_configuration exampleRuntime exampleEnv exampleConfig
              exampleRows startWorld rq Hin) as (_ & Ha & _ & _ & Hl).
  split; [exact Ha | exact Hl].
Defined.

Lemma sleeps_batchEvent cfg (json : list Row) (evs : list Event) :
  Forall (batchEvent cfg json) evs ->
  Forall (fun ms => In ms [800; 2000; 4000; 8000]%Z) (sleeps evs).
Proof.
  induction 1 as [|ev evs Hev _ IH]; [constructor|].
  destruct ev; cbn [sleeps]; auto.
  constructor; [|exact IH].
  destruct Hev as [ -> | [ -> | [ -> | -> ] ] ]; simpl; auto.
Qed.

(** X3 -- The cost of a batch of [N] rows is bounded: at most [4 * N]
    calls of the endpoint, and pauses that add up to at most
    [14800 * N - 800] ms (800 ms before each row but the first, and at
    most 2000 + 4000 + 8000 ms of back-off per row); every single pause is
    800, 2000, 4000 or 8000 ms. *)
Theorem batch_cost_bounded (rt : JsRuntime) (env : Env) (cfg : Config)
    (json : list Row) (w : World) :
  let evs := newEvents w (snd (handleExcelFile rt env cfg json w)) in
  let N := Z.of_nat (List.length json) in
  (Z.of_nat (List.length (remoteCalls evs)) <= 4 * N)%Z /\
  (sumZ (sleeps evs) <= Z.max 0 (14800 * N - 800))%Z /\
  Forall (fun ms => In ms [800; 2000; 4000; 8000]%Z) (sleeps evs).
Proof.
  intros evs0 N. subst evs0 N.
  destruct (handleExcelFile_events rt env cfg json w) as (evs & -> & F & C & S).
  simpl remoteCalls. simpl sleeps. split; [lia|]. split.
  - unfold pauseBound in S. simpl (0 =? 0)%nat in S. simpl andb in S.
    destruct (List.length json); simpl in S |- *; lia.
  - inversion F as [|? ? _ F']. subst. apply (sleeps_batchEvent _ _ _ F').
Qed.

(* ================================================================== *)
(** * Batches that cannot score *)
(* ================================================================== *)

Lemma rowScoring_no_key rt env cfg i row title w :
  apiKeyMissing (API_KEY env) = true ->
  rowScoring rt env cfg i row title w =
    (inl apiKeyError, if (0 <? i)%nat then delay 800 w else w).
Proof.
  intros Hkey. unfold rowScoring, analyzeWithGemini. rewrite Hkey. reflexivity.
Qed.

Lemma forRows_no_key rt env cfg total (rows : list Row) :
  apiKeyMissing (API_KEY env) = true ->
  forallb (titleOk rt) rows = true ->
  forall i acc w,
  forRows rt env cfg total i rows acc w =
    (inr (acc ++ map (fun row => recordOfRow rt cfg row (titleOf rt row)
                                   (failedResult apiKeyError)) rows),
     {| calls := calls w;
        trace := trace w ++ pacingEvents total i (List.length rows) |}).
Proof.
  intros Hkey. induction rows as [|row rows IH]; intros Hok i acc w.
  - simpl. unfold pacingEvents. simpl. rewrite !app_nil_r. destruct w; reflexivity.
  - simpl in Hok. apply andb_true_iff in Hok. destruct Hok as [Hrow Hok].
    destruct (titleOk_inr _ _ Hrow) as [title Ht].
    cbn [forRows]. rewrite (processRow_titled _ _ _ _ _ _ _ Ht).
    rewrite rowScoring_no_key by exact Hkey. cbn [fst snd afterCatch].
    rewrite (IH Hok). cbn [map List.length]. unfold titleOf at 2. rewrite Ht.
    rewrite <- app_assoc. cbn [app]. f_equal. f_equal.
    + destruct (0 <? i)%nat; reflexivity.
    + unfold pacingEvents. cbn [seq flat_map].
      destruct (0 <? i)%nat; cbn [setProgress emit delay trace];
        rewrite <- ?app_assoc; reflexivity.
Qed.

Lemma remoteCalls_pacingEvents total n :
  forall i, remoteCalls (pacingEvents total i n) = [].
Proof.
  unfold pacingEvents. induction n as [|n IH]; intros i; [reflexivity|].
  cbn [seq flat_map]. rewrite remoteCalls_app, IH.
  destruct (0 <? i)%nat; reflexivity.
Qed.

Lemma sleeps_pacingEvents_later total n :
  forall i, (0 < i)%nat -> sleeps (pacingEvents total i n) = repeat 800%Z n.
Proof.
  unfold pacingEvents. induction n as [|n IH]; intros i Hi; [reflexivity|].
  cbn [seq flat_map]. rewrite sleeps_app, IH by lia.
  destruct i; [lia | reflexivity].
Qed.

Lemma sleeps_pacingEvents total n :
  sleeps (pacingEvents total 0 n) = repeat 800%Z (n - 1).
Proof.
  destruct n as [|n]; [reflexivity|].
  unfold pacingEvents. cbn [seq flat_map].
  rewrite sleeps_app. fold (pacingEvents total 1 n).
  rewrite sleeps_pacingEvents_later by lia.
  rewrite Nat.sub_succ, Nat.sub_0_r. reflexivity.
Qed.

(** X4 -- Without an API key (the variable is unset, empty, or the text
    "undefined") a batch whose title expressions do not throw still runs
    to its end and reports no error: it makes no call of the endpoint,
    still pauses 800 ms before every row but the first, and gives every
    row a record with the floor sub-scores 1, 1, 1 and the comment
    "AI分析失败: API_KEY 缺失！…". *)
Theorem batch_without_api_key (rt : JsRuntime) (env : Env) (cfg : Config)
    (json : list Row) (w : World)
    (Hkey : apiKeyMissing (API_KEY env) = true)
    (Hok : forallb (titleOk rt) json = true) :
  let run := handleExcelFile rt env cfg json w in
  (API_KEY env = None \/ API_KEY env = Some [] \/
   API_KEY env = Some (utf16 "undefined")) /\
  fst run =
    {| batchResults :=
         Some (map (fun row => recordOfRow rt cfg row (titleOf rt row)
                                 (failedResult apiKeyError)) json);
       errorLog := [] |} /\
  (forall rec, In rec (match batchResults (fst run) with Some l => l | None => [] end) ->
     评价 rec = utf16 "AI分析失败: " ++ message apiKeyError /\
     核心信息匹配 rec = 1%float /\ 获客效能 rec = 1%float /\
     受众精准度 rec = 1%float /\ 真需求 rec = utf16 "1.00") /\
  remoteCalls (newEvents w (snd run)) = [] /\
  sleeps (newEvents w (snd run)) = repeat 800%Z (List.length json - 1).
Proof.
  intros run.
  assert (Erun : run =
    ({| batchResults :=
          Some (map (fun row => recordOfRow rt cfg row (titleOf rt row)
                                  (failedResult apiKeyError)) json);
        errorLog := [] |},
     {| calls := calls w;
        trace := trace w ++ EProgress 0 :: pacingEvents (List.length json) 0
                                              (List.length json) |})).
  { unfold run, handleExcelFile. rewrite (forRows_no_key _ _ _ _ _ Hkey Hok).
    cbn [app setProgress emit calls trace]. rewrite <- app_assoc. reflexivity. }
  rewrite Erun. cbn [fst snd batchResults].
  rewrite (newEvents_app w _ (EProgress 0 :: pacingEvents (List.length json) 0
                                               (List.length json)))
    by reflexivity.
  split; [|split; [reflexivity|split; [|split]]].
  - unfold apiKeyMissing in Hkey. destruct (API_KEY env) as [k|]; [|auto].
    apply orb_true_iff in Hkey. destruct Hkey as [H|H];
      apply str_eqb_true in H; subst; auto.
  - intros rec Hin. apply in_map_iff in Hin. destruct Hin as (row & <- & _).
    cbn [recordOfRow composeRecord 评价 核心信息匹配 获客效能 受众精准度 真需求].
    repeat (split; [reflexivity|]). vm_compute. reflexivity.
  - cbn [remoteCalls]. apply remoteCalls_pacingEvents.
  - cbn [sleeps]. apply sleeps_pacingEvents.
Qed.

(** X4, witness: the four example rows, scored without a key. *)
Lemma batch_without_api_key_witness :
  remoteCalls (newEvents startWorld (snd
    (handleExcelFile exampleRuntime
       {| API_KEY := Some (utf16 "undefined");
          generateContent := generateContent exampleEnv;
          fetchProxy := fetchProxy exampleEnv |}
       exampleConfig exampleRows startWorld))) = [] /\
  sleeps (newEvents startWorld (snd
    (handleExcelFile exampleRuntime
       {| API_KEY := Some (utf16 "undefined");
          generateContent := generateContent exampleEnv;
          fetchProxy := fetchProxy exampleEnv |}
       exampleConfig exampleRows startWorld))) = [800; 800; 800]%Z.
Proof.
  pose proof (batch_without_api_key exampleRuntime
                {| API_KEY := Some (utf16 "undefined");
                   generateContent := generateContent exampleEnv;
                   fetchProxy := fetchProxy exampleEnv |}
                exampleConfig exampleRows startWorld
                ltac:(vm_compute; reflexivity) ltac:(vm_compute; reflexivity))
    as (_ & _ & _ & Hc & Hs).
  split; [exact Hc | exact Hs].
Defined.






(* ================================================================== *)
(** * The single-document handler *)
(* ================================================================== *)

Lemma trimStart_length (s : jsstring) : (List.length (trimStart s) <= List.length s)%nat.
Proof.
  induction s as [|c s IH]; simpl; [lia|].
  destruct (isWhiteSpace c); simpl; lia.
Qed.

Lemma trim_length (s : jsstring) : (List.length (trim s) <= List.length s)%nat.
Proof.
  unfold trim, trimEnd. rewrite length_rev.
  pose proof (trimStart_length (rev (trimStart s))) as H.
  rewrite length_rev in H. pose proof (trimStart_length s). lia.
Qed.

Lemma wordErrorText_nonempty (e : JsError) : wordErrorText e <> [].
Proof.
  unfold wordErrorText. destruct (message e); [|discriminate].
  intros H. vm_compute in H. discriminate.
Qed.

(** A successful scoring call on a string: which attempt answered, and
    what was appended to the trace. *)
Lemma analyzeWithGemini_success_shape rt env s mode km desc media w r :
  fst (analyzeWithGemini rt env (JString s) mode km desc media w) = inr r ->
  exists n,
    (n <= 3)%nat /\
    generateContent env (calls w + n) (promptOf media mode km desc s) = Parsed r /\
    trace (snd (analyzeWithGemini rt env (JString s) mode km desc media w)) =
      trace w ++ attemptsTrace (promptOf media mode km desc s) n 2000.
Proof.
  unfold analyzeWithGemini.
  destruct (apiKeyMissing (API_KEY env)); [discriminate|].
  destruct (retryLoop_runs env (promptOf media mode km desc s) 3 2000 w)
    as (n & Hn & _ & _ & ->).
  cbn [fst snd trace]. unfold attemptFrom. intros H.
  exists n. split; [exact Hn|]. split; [|reflexivity].
  destruct (generateContent env (calls w + n) _); simpl in H;
    try discriminate. injection H as ->. reflexivity.
Qed.

(** X6 -- [handleWordFile] always ends with [isProcessing = false], and
    with exactly one of a result and an error message: [wordResult] is
    null if and only if the error log is not empty.  Without a file
    nothing changes. *)
Theorem word_handler_result_or_error (rt : JsRuntime) (env : Env) (cfg : Config)
    (x : JsError + jsstring) (st : WordState) (w : World) :
  let st' := fst (handleWordFile rt env cfg (Some x) st w) in
  isProcessing st' = false /\
  (wordResult st' = None <-> wordErrorLog st' <> []) /\
  handleWordFile rt env cfg None st w = (st, w).
Proof.
  cbv zeta. split; [|split; [|reflexivity]].
  - unfold handleWordFile. destruct x as [e|t]; [reflexivity|].
    destruct (List.length (trim t) <? 10)%nat; [reflexivity|].
    destruct (analyzeWithGemini _ _ _ _ _ _ _ _) as [[e|r] w']; reflexivity.
  - unfold handleWordFile. destruct x as [e|t].
    + cbn [fst wordResult wordErrorLog]. split; [intros _|reflexivity].
      apply wordErrorText_nonempty.
    + destruct (List.length (trim t) <? 10)%nat.
      * cbn [fst wordResult wordErrorLog]. split; [intros _|reflexivity].
        apply wordErrorText_nonempty.
      * destruct (analyzeWithGemini _ _ _ _ _ _ _ _) as [[e|r] w'];
          cbn [fst wordResult wordErrorLog].
        -- split; [intros _|reflexivity]. apply wordErrorText_nonempty.
        -- split; [discriminate | intros H; contradiction H; reflexivity].
Qed.

(** X7 -- When [handleWordFile] produces a result, the extraction
    succeeded with a text of at least 10 code units after trimming; the
    scores are an answer of the endpoint to a request for the media name
    "内部稿件" with the configuration of the component; between one and four
    calls were made, all with that request, whose content is the text cut
    at 5000 code units; and [textLen] is the length of the whole,
    untrimmed and uncut text. *)
Theorem word_result_origin (rt : JsRuntime) (env : Env) (cfg : Config)
    (x : JsError + jsstring) (st : WordState) (w : World) (r : WordResult)
    (Hres : wordResult (fst (handleWordFile rt env cfg (Some x) st w)) = Some r) :
  exists fullText,
    x = inr fullText /\
    textLen r = List.length fullText /\
    (10 <= List.length (trim fullText) <= textLen r)%nat /\
    let rq := promptOf (JString (utf16 "内部稿件")) (audienceMode cfg)
                (projectKeyMessage cfg) (projectDesc cfg) fullText in
    let evs := newEvents w (snd (handleWordFile rt env cfg (Some x) st w)) in
    rq_content rq = firstn 5000 fullText /\
    (exists n, generateContent env n rq = Parsed (word_scores r)) /\
    Forall (fun rq' => rq' = rq) (remoteCalls evs) /\
    (1 <= List.length (remoteCalls evs) <= 4)%nat.
Proof.
  unfold handleWordFile in *. destruct x as [e|t]; [discriminate|].
  destruct (List.length (trim t) <? 10)%nat eqn:Hlen; [discriminate|].
  apply Nat.ltb_ge in Hlen.
  destruct (analyzeWithGemini rt env (JString t) (audienceMode cfg)
              (projectKeyMessage cfg) (projectDesc cfg)
              (JString (utf16 "内部稿件")) w) as [[e|ai] w'] eqn:Hrun;
    [discriminate|].
  cbn [fst snd wordResult] in *. injection Hres as <-.
  pose proof (analyzeWithGemini_success_shape rt env t (audienceMode cfg)
                (projectKeyMessage cfg) (projectDesc cfg)
                (JString (utf16 "内部稿件")) w ai) as Hs.
  rewrite Hrun in Hs. destruct (Hs eq_refl) as (n & Hn & Hgen & Htr).
  cbn [snd] in Htr.
  exists t. split; [reflexivity|]. split; [reflexivity|].
  cbn [textLen word_scores]. split; [split; [exact Hlen | apply trim_length]|].
  cbv zeta. rewrite (newEvents_app _ _ _ Htr), remoteCalls_attemptsTrace.
  split; [reflexivity|]. split; [eauto|]. split.
  - apply Forall_forall. intros rq' Hin. apply repeat_spec in Hin. exact Hin.
  - rewrite repeat_length. lia.
Qed.

(** X7, witness: a document of 39 code units, two of them leading spaces. *)
Lemma word_result_origin_witness :
  exists fullText,
    @inr JsError jsstring (utf16 "  Clinics offer free checks this month.") = inr fullText /\
    List.length fullText = 39%nat.
Proof.
  destruct (word_result_origin exampleRuntime exampleEnv exampleConfig
              (inr (utf16 "  Clinics offer free checks this month."))
              {| wordResult := None; wordErrorLog := []; isProcessing := false |}
              startWorld
              {| word_scores := exampleAnswer; textLen := 39 |}
              ltac:(vm_compute; reflexivity))
    as (fullText & Hx & Hlen & _).
  exists fullText. split; [exact Hx | symmetry; exact Hlen].
Defined.

(** X8 -- A document whose text has fewer than 10 code units once trimmed
    (an empty document, or one of white space only, however long) is
    rejected before anything is sent: the world is unchanged, no result is
    set and the error log is "文档内容过少。". *)
Theorem short_document_rejected (rt : JsRuntime) (env : Env) (cfg : Config)
    (fullText : jsstring) (st : WordState) (w : World)
    (Hshort : (List.length (trim fullText) < 10)%nat) :
  handleWordFile rt env cfg (Some (inr fullText)) st w =
    ({| wordResult := None; wordErrorLog := utf16 "文档内容过少。";
        isProcessing := false |}, w) /\
  newEvents w (snd (handleWordFile rt env cfg (Some (inr fullText)) st w)) = [].
Proof.
  apply Nat.ltb_lt in Hshort.
  assert (Emsg : wordErrorText {| message := utf16 "文档内容过少。" |}
                 = utf16 "文档内容过少。") by (vm_compute; reflexivity).
  unfold handleWordFile. rewrite Hshort, Emsg. cbv beta iota zeta.
  split; [reflexivity|].
  cbn [snd]. unfold newEvents. apply skipn_all.
Qed.

(** X8, witness: twelve spaces and a line break. *)
Lemma short_document_rejected_witness :
  newEvents startWorld (snd (handleWordFile exampleRuntime exampleEnv exampleConfig
     (Some (inr (repeat 32%N 12 ++ [10%N])))
     {| wordResult := None; wordErrorLog := []; isProcessing := false |}
     startWorld)) = [].
Proof.
  exact (proj2 (short_document_rejected exampleRuntime exampleEnv exampleConfig
                  (repeat 32%N 12 ++ [10%N])
                  {| wordResult := None; wordErrorLog := []; isProcessing := false |}
                  startWorld ltac:(vm_compute; lia))).
Defined.

(* ================================================================== *)
(** * Sorting and ranking *)
(* ================================================================== *)

Lemma key_eqb_true (a b : BatchKey) : key_eqb a b = true <-> a = b.
Proof. destruct a, b; simpl; split; intros H; try reflexivity; discriminate. Qed.

(** X9 -- A click on a column header always selects that column; the
    direction is ascending exactly when the column was already selected in
    descending order, and descending otherwise (no column yet, another
    column, or the same column ascending).  So repeated clicks on one
    column alternate between the two directions, starting with
    descending. *)
Theorem requestSort_toggles (key : BatchKey) (sortConfig : SortConfig) :
  let s1 := requestSort key sortConfig in
  let s2 := requestSort key s1 in
  (sortConfig = Some (key, desc) -> s1 = Some (key, asc)) /\
  (sortConfig <> Some (key, desc) -> s1 = Some (key, desc)) /\
  (forall other d, other <> key -> requestSort key (Some (other, d)) = Some (key, desc)) /\
  requestSort key None = Some (key, desc) /\
  s2 <> s1 /\
  requestSort key s2 = s1.
Proof.
  assert (Hrefl : key_eqb key key = true) by (apply key_eqb_true; reflexivity).
  cbv zeta. repeat split.
  - intros ->. simpl. rewrite Hrefl. reflexivity.
  - intros Hne. destruct sortConfig as [[k []]|]; simpl; try reflexivity.
    destruct (key_eqb k key) eqn:E; [|reflexivity].
    apply key_eqb_true in E. subst. contradiction Hne. reflexivity.
  - intros other d Hne. destruct d; simpl; [reflexivity|].
    destruct (key_eqb other key) eqn:E; [|reflexivity].
    apply key_eqb_true in E. contradiction.
  - destruct sortConfig as [[k []]|]; simpl; rewrite ?Hrefl; try discriminate;
      destruct (key_eqb k key); simpl; rewrite ?Hrefl; discriminate.
  - destruct sortConfig as [[k []]|]; simpl; rewrite ?Hrefl; try reflexivity;
      destruct (key_eqb k key); simpl; rewrite ?Hrefl; simpl; rewrite ?Hrefl;
      reflexivity.
Qed.

Lemma sortInsert_perm {A} (cmp : A -> A -> float) (x : A) (l : list A) :
  Permutation (sortInsert cmp x l) (x :: l).
Proof.
  induction l as [|y l IH]; simpl; [apply Permutation_refl|].
  destruct (0 <? cmp x y)%float; [|apply Permutation_refl].
  eapply Permutation_trans; [apply perm_skip, IH | apply perm_swap].
Qed.

Lemma Array_sort_perm {A} (cmp : A -> A -> float) (l : list A) :
  Permutation (Array_sort cmp l) l.
Proof.
  induction l as [|x l IH]; simpl; [constructor|].
  eapply Permutation_trans; [apply sortInsert_perm | apply perm_skip, IH].
Qed.

(** X10 -- The leaderboard shows [min(10, N)] of the [N] result records,
    each of them as often as it occurs in the results and none that is
    not there; with ten records or fewer it shows all of them.  Without
    results it is empty. *)
Theorem top10_selects_from_results (results : list BatchResult) :
  let top := top10Results (Some results) in
  List.length top = Nat.min 10 (List.length results) /\
  (exists rest, Permutation (top ++ rest) results) /\
  (forall r, In r top -> In r results) /\
  ((List.length results <= 10)%nat -> Permutation top results) /\
  top10Results None = [].
Proof.
  cbv zeta. unfold top10Results.
  set (sorted := Array_sort _ results).
  assert (Hp : Permutation sorted results) by apply Array_sort_perm.
  split; [|split; [|split; [|split]]].
  - rewrite length_firstn, (Permutation_length Hp). reflexivity.
  - exists (skipn 10 sorted). rewrite firstn_skipn. exact Hp.
  - intros r Hin. eapply Permutation_in; [exact Hp|].
    rewrite <- (firstn_skipn 10 sorted). apply in_or_app. left. exact Hin.
  - intros Hle. rewrite firstn_all2; [exact Hp|].
    rewrite (Permutation_length Hp). exact Hle.
  - reflexivity.
Qed.

(* ================================================================== *)
(** * Comparisons of binary64 numbers *)
(* ================================================================== *)

Lemma SFcompare_antisym (x y : spec_float) (c : comparison) :
  SFcompare x y = Some c -> SFcompare y x = Some (CompOpp c).
Proof.
  destruct x as [sx|sx| |sx mx ex], y as [sy|sy| |sy my ey]; simpl;
    intros H; try discriminate; injection H as <-;
    try (destruct sx; reflexivity); try (destruct sy; reflexivity);
    try (destruct sx, sy; reflexivity).
  change (PosDef.Pos.compare_cont Eq mx my) with (Pos.compare mx my).
  change (PosDef.Pos.compare_cont Eq my mx) with (Pos.compare my mx).
  rewrite (Z.compare_antisym ex ey), (Pos.compare_antisym mx my).
  destruct sx, sy; try reflexivity;
    destruct (ex ?= ey)%Z; simpl; try reflexivity;
    destruct (mx ?= my)%positive; reflexivity.
Qed.

Lemma SFcompare_refl (x : spec_float) :
  x <> S754_nan -> SFcompare x x = Some Eq.
Proof.
  destruct x as [s|s| |s m e]; simpl; intros H; try reflexivity.
  - destruct s; reflexivity.
  - contradiction H. reflexivity.
  - change (PosDef.Pos.compare_cont Eq m m) with (Pos.compare m m).
    rewrite Z.compare_refl, Pos.compare_refl. destruct s; reflexivity.
Qed.

Lemma SFcompare_None (x y : spec_float) :
  SFcompare x y = None -> x = S754_nan \/ y = S754_nan.
Proof.
  destruct x, y; simpl; intros H; try discriminate; auto.
Qed.

Lemma is_nan_false (x : float) : is_nan x = false -> Prim2SF x <> S754_nan.
Proof.
  unfold is_nan. rewrite FloatAxioms.eqb_spec. unfold SFeqb. intros H E.
  rewrite E in H. simpl in H. discriminate.
Qed.

Lemma is_nan_true (x : float) : is_nan x = true -> Prim2SF x = S754_nan.
Proof.
  unfold is_nan. rewrite FloatAxioms.eqb_spec. unfold SFeqb. intros H.
  destruct (Prim2SF x) eqn:E; try reflexivity;
    rewrite SFcompare_refl in H by discriminate; discriminate.
Qed.

Lemma ltb_leb (x y : float) : (x <? y)%float = true -> (x <=? y)%float = true.
Proof.
  rewrite FloatAxioms.ltb_spec, FloatAxioms.leb_spec. unfold SFltb, SFleb.
  destruct (SFcompare _ _) as [[]|]; congruence.
Qed.

Lemma leb_refl (x : float) : is_nan x = false -> (x <=? x)%float = true.
Proof.
  intros H. rewrite FloatAxioms.leb_spec. unfold SFleb.
  rewrite SFcompare_refl by (apply is_nan_false; exact H). reflexivity.
Qed.

(** Two numbers neither of which is below the other, and neither [NaN],
    compare as equal. *)
Lemma not_ltb_leb (x y : float) :
  is_nan x = false -> is_nan y = false ->
  (x <? y)%float = false -> (y <? x)%float = false ->
  (x <=? y)%float = true /\ (y <=? x)%float = true.
Proof.
  intros Hx Hy. rewrite !FloatAxioms.ltb_spec, !FloatAxioms.leb_spec. unfold SFltb, SFleb.
  destruct (SFcompare (Prim2SF x) (Prim2SF y)) as [c|] eqn:E.
  - rewrite (SFcompare_antisym _ _ _ E). destruct c; simpl; auto; discriminate.
  - apply SFcompare_None in E. destruct E as [E|E];
      [apply is_nan_false in Hx | apply is_nan_false in Hy]; contradiction.
Qed.

(** [Math.min] returns [NaN] or one of its arguments, which is then below
    or equal to both. *)
Lemma Math_min_spec (a b : float) :
  (Math_min a b = nan /\ (is_nan a = true \/ is_nan b = true)) \/
  (is_nan a = false /\ is_nan b = false /\
   (Math_min a b = a \/ Math_min a b = b) /\
   (Math_min a b <=? a)%float = true /\ (Math_min a b <=? b)%float = true).
Proof.
  unfold Math_min.
  destruct (is_nan a) eqn:Ha; [left; auto|].
  destruct (is_nan b) eqn:Hb; [left; auto|]. cbn [orb]. right.
  split; [reflexivity|]. split; [reflexivity|].
  destruct (a <? b)%float eqn:Hab.
  { split; [auto|]. split; [apply leb_refl; exact Ha | apply ltb_leb; exact Hab]. }
  destruct (b <? a)%float eqn:Hba.
  { split; [auto|]. split; [apply ltb_leb; exact Hba | apply leb_refl; exact Hb]. }
  destruct (not_ltb_leb a b Ha Hb Hab Hba) as [H1 H2].
  destruct (is_zero a && get_sign a).
  - split; [auto|]. split; [apply leb_refl; exact Ha | exact H1].
  - split; [auto|]. split; [exact H2 | apply leb_refl; exact Hb].
Qed.

Lemma Math_max_spec (a b : float) :
  (Math_max a b = nan /\ (is_nan a = true \/ is_nan b = true)) \/
  (is_nan a = false /\ is_nan b = false /\
   (Math_max a b = a \/ Math_max a b = b) /\
   (a <=? Math_max a b)%float = true /\ (b <=? Math_max a b)%float = true).
Proof.
  unfold Math_max.
  destruct (is_nan a) eqn:Ha; [left; auto|].
  destruct (is_nan b) eqn:Hb; [left; auto|]. cbn [orb]. right.
  split; [reflexivity|]. split; [reflexivity|].
  destruct (a <? b)%float eqn:Hab.
  { split; [auto|]. split; [apply ltb_leb; exact Hab | apply leb_refl; exact Hb]. }
  destruct (b <? a)%float eqn:Hba.
  { split; [auto|]. split; [apply leb_refl; exact Ha | apply ltb_leb; exact Hba]. }
  destruct (not_ltb_leb a b Ha Hb Hab Hba) as [H1 H2].
  destruct (is_zero a && get_sign a).
  - split; [auto|]. split; [exact H1 | apply leb_refl; exact Hb].
  - split; [auto|]. split; [apply leb_refl; exact Ha | exact H2].
Qed.

(** X11 -- In binary64 arithmetic, whatever the cell values are and however
    the runtime approximates [Math.log10]: the volume quality is [NaN] or
    at most 10, and it is either the cap 10 itself or the rounded value
    [Math.round(rawScore * 10) / 10]. *)
Theorem volume_quality_capped (rt : JsRuntime) (views interactions : JsVal) :
  let q := calculateVolumeQuality rt views interactions in
  let rounded :=
    (Math_round (Math_log10 rt (cleanNum rt views + cleanNum rt interactions * 5 + 10)
                 * 1.5 * 10) / 10)%float in
  (is_nan q = true \/ (q <=? 10)%float = true) /\
  (is_nan q = true \/ q = 10%float \/ q = rounded) /\
  (is_nan q = true <-> is_nan rounded = true).
Proof.
  cbv zeta. unfold calculateVolumeQuality. cbv zeta.
  set (r := (Math_round _ / 10)%float). clearbody r.
  destruct (Math_min_spec 10 r) as [[E [H|H]] | (Ha & Hb & Hc & H1 & H2)].
  - vm_compute in H. discriminate.
  - rewrite E. split; [left; reflexivity|]. split; [left; reflexivity|].
    split; [intros _; exact H | reflexivity].
  - split; [right; exact H1|]. split; [right; exact Hc|].
    destruct Hc as [-> | ->].
    + split; [intros H; vm_compute in H; discriminate | rewrite Hb; discriminate].
    + rewrite Hb. tauto.
Qed.

(** X12 -- The marker size of the scatter chart is [NaN] (when the total
    of the record does not parse as a number) or lies between 16 and 45. *)
Theorem marker_size_clamped (d : BatchResult) :
  is_nan (markerSize d) = true \/
  ((16 <=? markerSize d)%float = true /\ (markerSize d <=? 45)%float = true).
Proof.
  unfold markerSize.
  set (v := (parseFloat_string (项目总分 d) * 4)%float). clearbody v.
  destruct (Math_max_spec 16 v) as [[Em _] | (_ & Hv & Hm & Hlo & _)].
  { left. rewrite Em. reflexivity. }
  set (m := Math_max 16 v) in *. clearbody m.
  destruct (Math_min_spec 45 m) as [[E _] | (_ & Hmn & Hc & Hhi & _)].
  { left. rewrite E. reflexivity. }
  right. split; [|exact Hhi].
  destruct Hc as [-> | ->]; [vm_compute; reflexivity | exact Hlo].
Qed.

(* ================================================================== *)
(** * The sidebar *)
(* ================================================================== *)

(** X13 -- Whatever the sequence of mouse events, the width of the sidebar
    stays strictly between 200 and 600; and it keeps its initial value 320
    as long as the handle has not been pressed. *)
Theorem sidebar_width_stays_in_range (evs : list MouseEvent) :
  let s := fold_left onMouse evs initialSidebar in
  ((200 <? sidebarWidth s)%float && (sidebarWidth s <? 600)%float = true) /\
  (~ In MouseDownOnHandle evs -> s = initialSidebar).
Proof.
  cbv zeta. split.
  - assert (H : (200 <? sidebarWidth initialSidebar)%float
                && (sidebarWidth initialSidebar <? 600)%float = true)
      by (vm_compute; reflexivity).
    revert H. generalize initialSidebar.
    induction evs as [|ev evs IH]; intros s H; [exact H|].
    cbn [fold_left]. apply IH. destruct ev; cbn [onMouse sidebarWidth]; auto.
    destruct (isResizing s); [|exact H].
    destruct ((200 <? clientX)%float && (clientX <? 600)%float) eqn:E; [exact E | exact H].
  - assert (H : isResizing initialSidebar = false) by reflexivity.
    revert H. generalize initialSidebar.
    induction evs as [|ev evs IH]; intros s H Hno; [reflexivity|].
    cbn [fold_left]. destruct ev.
    + contradiction Hno. left. reflexivity.
    + assert (E : onMouse s MouseUp = s) by (destruct s; simpl in *; subst; reflexivity).
      rewrite E. apply IH; [exact H | intros Hin; apply Hno; right; exact Hin].
    + assert (E : onMouse s (MouseMove clientX) = s)
        by (unfold onMouse; rewrite H; reflexivity).
      rewrite E. apply IH; [exact H | intros Hin; apply Hno; right; exact Hin].
Qed.

(* ================================================================== *)
(** * The format of the composites *)
(* ================================================================== *)

Lemma uint_units_digits (d : Decimal.uint) :
  Forall (fun u => isDigit u = true) (uint_units d).
Proof. induction d; simpl; constructor; auto. Qed.

Lemma fixedDigits_two (n : Z) :
  exists a b,
    fixedDigits n 2 = a ++ [46%N] ++ b /\ a <> [] /\ List.length b = 2%nat /\
    Forall (fun u => isDigit u = true) (a ++ b).
Proof.
  unfold fixedDigits. cbv zeta.
  set (m := decimalDigits n).
  set (m' := repeat 48%N (2 + 1 - List.length m) ++ m).
  assert (Hd : Forall (fun u => isDigit u = true) m').
  { apply Forall_app. split.
    - apply Forall_forall. intros u Hu. apply repeat_spec in Hu. subst. reflexivity.
    - apply uint_units_digits. }
  assert (Hk : (3 <= List.length m')%nat).
  { unfold m'. rewrite length_app, repeat_length. lia. }
  exists (firstn (List.length m' - 2) m'), (skipn (List.length m' - 2) m').
  split; [reflexivity|]. split; [|split].
  - intros E. apply (f_equal (@List.length N)) in E.
    rewrite length_firstn in E. simpl in E. lia.
  - rewrite length_skipn. lia.
  - rewrite firstn_skipn. exact Hd.
Qed.

(** The possible results of [x.toFixed(2)]. *)
Lemma toFixed2_shape (rt : JsRuntime) (x : float) :
  isFixed2 (toFixed rt x 2) \/
  toFixed rt x 2 = utf16 "NaN" \/
  toFixed rt x 2 = utf16 "Infinity" \/
  toFixed rt x 2 = utf16 "-Infinity" \/
  ((1e21 <=? abs x)%float = true /\ toFixed rt x 2 = NumberToString rt x).
Proof.
  unfold toFixed. destruct (Prim2SF x) as [s|s| |s m e].
  - left. destruct (fixedDigits_two 0) as (a & b & E & Ha & Hb & Hd).
    exists [], a, b. rewrite E. auto.
  - destruct s; auto.
  - auto.
  - destruct (1e21 <=? abs x)%float; [auto 6|]. left.
    match goal with |- isFixed2 (_ ++ fixedDigits ?n 2) =>
      destruct (fixedDigits_two n) as (a & b & E & Ha & Hb & Hd) end.
    exists (if s then [45%N] else []), a, b. rewrite E.
    split; [reflexivity|]. split; [destruct s; auto|]. auto.
Qed.

(** X14 -- Each of the three composite strings of a record is a numeral
    with exactly two decimals, unless the composite is not finite ("NaN",
    "Infinity", "-Infinity") or is 1e21 or more in absolute value (then it
    is printed by [Number::toString]). *)
Theorem composites_have_two_decimals (rt : JsRuntime) (title mediaName : JsVal)
    (volQuality tierScore : float) (aiRes : AIAnalysisResult) (c : jsstring) :
  let rec := composeRecord rt title mediaName volQuality tierScore aiRes in
  In c [声量 rec; 真需求 rec; 项目总分 rec] ->
  isFixed2 c \/ c = utf16 "NaN" \/ c = utf16 "Infinity" \/ c = utf16 "-Infinity" \/
  exists v, (1e21 <=? abs v)%float = true /\ c = NumberToString rt v.
Proof.
  cbv zeta. unfold composeRecord. cbn [声量 真需求 项目总分].
  intros [<- | [<- | [<- | []]]];
    match goal with |- context [toFixed rt ?v 2] =>
      destruct (toFixed2_shape rt v) as [H | [H | [H | [H | [H1 H2]]]]] end;
    auto 6; right; right; right; right; eexists; split; eassumption.
Qed.

(** X14, witness: the composites of the example of the rubric. *)
Lemma composites_have_two_decimals_witness :
  isFixed2 (utf16 "7.10") \/ utf16 "7.10" = utf16 "NaN" \/
  utf16 "7.10" = utf16 "Infinity" \/ utf16 "7.10" = utf16 "-Infinity" \/
  exists v, (1e21 <=? abs v)%float = true /\
            utf16 "7.10" = NumberToString exampleRuntime v.
Proof.
  exact (composites_have_two_decimals exampleRuntime JUndefined JUndefined 5 10
           {| km_score := 8; acquisition_score := 6; audience_precision_score := 7;
              comment := [] |}
           (utf16 "7.10")
           ltac:(right; right; left; vm_compute; reflexivity)).
Defined.

(* ================================================================== *)
(** * [cleanNum] on strings without a decimal point *)
(* ================================================================== *)

Lemma isDigit_facts (c : N) :
  isDigit c = true ->
  isWhiteSpace c = false /\ c <> 43%N /\ c <> 45%N /\ c <> 46%N /\ c <> 73%N /\
  isK c = false.
Proof.
  unfold isDigit, isWhiteSpace, isK. intros H.
  apply andb_true_iff in H. destruct H as [H1 H2].
  apply N.leb_le in H1. apply N.leb_le in H2.
  repeat split; try lia;
    repeat (apply orb_false_iff; split);
    try (apply N.eqb_neq; lia);
    try (apply andb_false_iff; (left; apply N.leb_gt; lia) || (right; apply N.leb_gt; lia)).
Qed.

Lemma spanDigits_all (ds : jsstring) :
  Forall (fun u => isDigit u = true) ds -> spanDigits ds = (ds, []).
Proof.
  induction 1 as [|c ds Hc _ IH]; [reflexivity|].
  simpl. rewrite Hc, IH. reflexivity.
Qed.

Lemma Z2float_0 : Z2float 0 = 0%float.
Proof. vm_compute. reflexivity. Qed.

(** [parseFloat] on a string of digits is the number they spell. *)
Lemma parseFloat_string_digits (ds : jsstring) :
  Forall (fun u => isDigit u = true) ds ->
  orZero (parseFloat_string ds) = orZero (Z2float (digitsValue ds)).
Proof.
  intros Hd. destruct ds as [|c ds'] eqn:Eds.
  { vm_compute. reflexivity. }
  rewrite <- Eds in *. assert (Hc : isDigit c = true).
  { rewrite Eds in Hd. inversion Hd; assumption. }
  destruct (isDigit_facts c Hc) as (Hw & H43 & H45 & _ & H73 & _).
  unfold parseFloat_string.
  assert (Et : trimStart ds = ds). { rewrite Eds. simpl. rewrite Hw. reflexivity. }
  rewrite Et.
  assert (Es : match ds with
               | 43%N :: r => (false, r)
               | 45%N :: r => (true, r)
               | _ => (false, ds)
               end = (false, ds)).
  { rewrite Eds. destruct c as [|p]; [reflexivity|].
    do 6 (destruct p as [p|p|]; try reflexivity); congruence. }
  rewrite Es.
  assert (Ei : startsWith ds (utf16 "Infinity") = false).
  { rewrite Eds. change (utf16 "Infinity") with (73%N :: utf16 "nfinity").
    simpl. unfold unit_eqb. apply andb_false_iff. left. apply N.eqb_neq. exact H73. }
  rewrite Ei, (spanDigits_all ds Hd). cbn [spanDigits exponentPart List.length].
  rewrite app_nil_r. rewrite Eds at 1.
  unfold decimalToFloat, Z2float. cbn [Z.of_nat Z.sub Z.opp].
  destruct (digitsValue ds =? 0)%Z eqn:E0.
  - apply Z.eqb_eq in E0. rewrite E0. vm_compute. reflexivity.
  - cbn [Z.leb Z.compare]. rewrite Z.pow_0_r, Z.mul_1_r. reflexivity.
Qed.

Lemma replace_without_dot (s : jsstring) :
  ~ In 46%N s ->
  replaceAll (fun c => negb (isDigitOrDot c)) [] (replaceAll isK (utf16 "000") s)
  = spelledDigits s.
Proof.
  unfold replaceAll, spelledDigits.
  induction s as [|c s IH]; intros Hno; [reflexivity|].
  cbn [flat_map]. rewrite flat_map_app, IH by (intros H; apply Hno; right; exact H).
  f_equal. destruct (isK c) eqn:Ek; [vm_compute; reflexivity|].
  cbn [flat_map]. rewrite app_nil_r. unfold isDigitOrDot.
  destruct (isDigit c); [reflexivity|]. cbn [orb].
  destruct (c =? 46)%N eqn:E; [|reflexivity].
  apply N.eqb_eq in E. contradiction Hno. left. exact E.
Qed.

Lemma spelledDigits_digits (s : jsstring) :
  Forall (fun u => isDigit u = true) (spelledDigits s).
Proof.
  unfold spelledDigits. induction s as [|c s IH]; [constructor|].
  cbn [flat_map]. apply Forall_app. split; [|exact IH].
  destruct (isK c); [repeat constructor|].
  destruct (isDigit c) eqn:E; [repeat constructor; exact E | constructor].
Qed.

Lemma digitsValue_app (a b : jsstring) :
  digitsValue (a ++ b) =
    (digitsValue a * 10 ^ Z.of_nat (List.length b) + digitsValue b)%Z.
Proof.
  unfold digitsValue. rewrite fold_left_app.
  generalize (fold_left (fun acc c => (acc * 10 + digitVal c)%Z) a 0%Z) as x.
  induction b as [|c b IH]; intros x.
  - simpl. lia.
  - cbn [fold_left List.length]. rewrite IH, (IH (0 * 10 + digitVal c)%Z).
    rewrite Nat2Z.inj_succ, Z.pow_succ_r by lia. lia.
Qed.

Lemma spelledDigits_of_digits (ds : jsstring) :
  Forall (fun u => isDigit u = true) ds -> spelledDigits ds = ds.
Proof.
  unfold spelledDigits. induction 1 as [|c ds Hc _ IH]; [reflexivity|].
  cbn [flat_map]. rewrite IH. destruct (isDigit_facts c Hc) as (_ & _ & _ & _ & _ & Hk).
  rewrite Hk, Hc. reflexivity.
Qed.

(** X15 -- On a string without a decimal point, [cleanNum] is the number
    spelled by its digits, every [k] or [K] standing for three zeros and
    every other character (thousands separators, units, signs) being
    ignored; if that number is 0 or there is no digit the result is 0.  In
    particular digits followed by one [k] give a thousand times the
    number of the digits. *)
Theorem cleanNum_spelled_digits (rt : JsRuntime) (s : jsstring)
    (Hnodot : ~ In 46%N s) :
  cleanNum rt (JString s) = orZero (Z2float (digitsValue (spelledDigits s))) /\
  (forall ds, s = ds ++ utf16 "k" -> Forall (fun u => isDigit u = true) ds ->
     cleanNum rt (JString s) = orZero (Z2float (digitsValue ds * 1000))).
Proof.
  assert (H1 : cleanNum rt (JString s) =
               orZero (Z2float (digitsValue (spelledDigits s)))).
  { unfold cleanNum. rewrite (replace_without_dot s Hnodot).
    apply parseFloat_string_digits, spelledDigits_digits. }
  split; [exact H1|].
  intros ds -> Hd. rewrite H1. unfold spelledDigits. rewrite flat_map_app.
  fold (spelledDigits ds). rewrite (spelledDigits_of_digits ds Hd).
  change (flat_map _ (utf16 "k")) with (utf16 "000").
  rewrite digitsValue_app.
  replace (digitsValue (utf16 "000")) with 0%Z by (vm_compute; reflexivity).
  replace (Z.of_nat (List.length (utf16 "000"))) with 3%Z by (vm_compute; reflexivity).
  rewrite Z.add_0_r. reflexivity.
Qed.

(** X15, witness: "1,234k" is 1234000. *)
Lemma cleanNum_spelled_digits_witness :
  cleanNum exampleRuntime (JString (utf16 "1,234k"))
  = orZero (Z2float (digitsValue (spelledDigits (utf16 "1,234k")))).
Proof.
  exact (proj1 (cleanNum_spelled_digits exampleRuntime (utf16 "1,234k")
                  ltac:(vm_compute; intuition discriminate))).
Defined.

(* ================================================================== *)
(** * Tier lists without entries *)
(* ================================================================== *)

Lemma trimStart_blank (s : jsstring) :
  Forall (fun c => isWhiteSpace c = true) s -> trimStart s = [].
Proof.
  induction 1 as [|c s Hc _ IH]; [reflexivity|]. simpl. rewrite Hc. exact IH.
Qed.

Lemma trim_blank (s : jsstring) :
  Forall (fun c => isWhiteSpace c = true) s -> trim s = [].
Proof. intros H. unfold trim. rewrite (trimStart_blank s H). reflexivity. Qed.

Lemma split_pieces_from (sep : N -> bool) (P : N -> Prop) (s : jsstring) :
  Forall P s -> Forall (Forall P) (split sep s).
Proof.
  induction 1 as [|c s Hc _ IH]; [repeat constructor|].
  simpl. destruct (sep c); [constructor; [constructor | exact IH]|].
  destruct (split sep s) as [|piece rest]; [repeat constructor; exact Hc|].
  inversion IH; subst. constructor; [constructor; assumption | assumption].
Qed.

Lemma parseTier_blank (rt : JsRuntime) (t : jsstring) :
  toLowerCase rt [] = [] -> blankTier t -> parseTier rt t = [].
Proof.
  intros Hlow Hb. unfold parseTier.
  destruct (split_unsplit isComma t) as (_ & _ & _ & _ & Hnc).
  pose proof (split_pieces_from isComma _ t Hb) as Hp.
  induction (split isComma t) as [|piece rest IH]; [reflexivity|].
  inversion Hnc; subst. inversion Hp; subst.
  cbn [map filter]. rewrite trim_blank, Hlow.
  - cbn [nonEmpty]. apply IH; assumption.
  - rewrite Forall_forall in *. intros c Hc.
    destruct (H3 c Hc) as [Hcomma | Hw]; [|exact Hw].
    rewrite (H1 c Hc) in Hcomma. discriminate.
Qed.

(** X16 -- While the three tier lists have no entries (they are empty, as
    in the initial state of the component, or hold only commas and white
    space), every media name scores 3.  (For a runtime whose lower-casing
    maps the empty string to itself.) *)
Theorem blank_tiers_score_3 (rt : JsRuntime) (ts : Tiers) (mediaName : JsVal)
    (Hlow : toLowerCase rt [] = [])
    (H1 : blankTier (tier1 ts)) (H2 : blankTier (tier2 ts))
    (H3 : blankTier (tier3 ts)) :
  getMediaTierScore rt ts mediaName = 3%float /\
  getMediaTierScore rt {| tier1 := []; tier2 := []; tier3 := [] |} mediaName
    = 3%float.
Proof.
  assert (Hgen : forall ts', blankTier (tier1 ts') -> blankTier (tier2 ts') ->
            blankTier (tier3 ts') -> getMediaTierScore rt ts' mediaName = 3%float).
  { intros ts' B1 B2 B3. unfold getMediaTierScore.
    rewrite !parseTier_blank by assumption. cbn [existsb].
    destruct (negb (truthy mediaName)); reflexivity. }
  split; [apply Hgen; assumption|].
  apply Hgen; constructor.
Qed.

(** X16, witness: lists of separators and spaces, and the name of a tier-1
    outlet of the example configuration. *)
Lemma blank_tiers_score_3_witness :
  getMediaTierScore exampleRuntime
    {| tier1 := []; tier2 := utf16 " , ，"; tier3 := utf16 "，，" |}
    (JString (utf16 "Xinhua Net")) = 3%float.
Proof.
  exact (proj1 (blank_tiers_score_3 exampleRuntime
                  {| tier1 := []; tier2 := utf16 " , ，"; tier3 := utf16 "，，" |}
                  (JString (utf16 "Xinhua Net")) ltac:(vm_compute; reflexivity)
                  ltac:(vm_compute; repeat (apply Forall_cons; [vm_compute; auto|]); apply Forall_nil)
                  ltac:(vm_compute; repeat (apply Forall_cons; [vm_compute; auto|]); apply Forall_nil)
                  ltac:(vm_compute; repeat (apply Forall_cons; [vm_compute; auto|]); apply Forall_nil))).
Defined.

